(** * tarkov-search: the caching and resilience layer of [server.js]

    A shallow embedding of the Express application in [src/server.js]:
    the in-memory TTL cache ([cache], [getFromCache], [clearCache]), the
    derivation of cache keys, the hard-path handlers (player search, player
    profile, item lookup), the soft-path handlers (ban check, ban
    statistics, price history), and the two admin endpoints.  The item
    search, the trending list and the health check are not modelled.

    Conventions of the embedding.
    - JavaScript values are the inductive [Val]; numbers that occur are
      integers (sizes, status codes, millisecond clocks) and are kept in [Z].
    - Strings are sequences of bytes (UTF-8).  Every string the modelled code
      inspects character by character has passed [validateUsername], hence
      is plain ASCII.
    - A promise that settles is an [Outcome]: fulfilled with a value or
      rejected with an [Error].  A synchronous [throw] inside an [async]
      function is a rejection as well.
    - [Date.now()] reads the field [now] of the environment; an upstream
      call appends to the log [sent] and advances the clock.
    - One request is run from start to end; the turns of other requests at an
      [await] are not part of the model. *)

From Stdlib Require Import ZArith String Ascii List Bool Lia.
From Stdlib Require Import DecimalString DecimalZ DecimalPos.
From stdpp Require Import base gmap strings list.

Set Warnings "-register-all".
Local Open Scope Z_scope.
Local Open Scope string_scope.

(** ** JavaScript values *)

Module Js.

Inductive Val : Type :=
| VUndefined
| VNull
| VBool (b : bool)
| VNum (n : Z)
| VStr (s : string)
| VArr (elems : list Val)
| VObj (fields : list (string * Val)).

(** An [Error] object; only its [message] is ever read. *)
Record Error : Type := new_Error { message : string }.

Inductive Outcome (A : Type) : Type :=
| Fulfilled (a : A)
| Rejected (e : Error).
Arguments Fulfilled {A} a.
Arguments Rejected {A} e.

(** ToBoolean. *)
Definition truthy (v : Val) : bool :=
  match v with
  | VUndefined | VNull => false
  | VBool b => b
  | VNum n => negb (n =? 0)%Z
  | VStr s => negb (String.eqb s "")
  | VArr _ | VObj _ => true
  end.

(** [a || b] on values. *)
Definition or_else (a b : Val) : Val := if truthy a then a else b.

(** [v === true]. *)
Definition is_true (v : Val) : bool :=
  match v with VBool true => true | _ => false end.

(** [v !== s] for a string [s]. *)
Definition differs_from_string (v : Val) (s : string) : bool :=
  match v with VStr t => negb (String.eqb t s) | _ => true end.

(** [typeof v !== 'string']. *)
Definition not_a_string (v : Val) : bool :=
  match v with VStr _ => false | _ => true end.

Fixpoint assoc (k : string) (fields : list (string * Val)) : Val :=
  match fields with
  | [] => VUndefined
  | (k', v) :: rest => if String.eqb k k' then v else assoc k rest
  end.

Definition decimal (n : Z) : string := NilZero.string_of_int (Z.to_int n).

Definition TypeError_reading (of_what key : string) : Error :=
  new_Error ("Cannot read properties of " +:+ of_what +:+ " (reading '" +:+ key +:+ "')").

(** [v.key] for an own, named property.  Reading a property of [undefined]
    or [null] throws a TypeError; primitives and arrays have none of the
    names used in [server.js]. *)
Definition member (v : Val) (key : string) : Outcome Val :=
  match v with
  | VUndefined => Rejected (TypeError_reading "undefined" key)
  | VNull => Rejected (TypeError_reading "null" key)
  | VObj fields => Fulfilled (assoc key fields)
  | _ => Fulfilled VUndefined
  end.

(** [v[i]] for a literal index [i]. *)
Definition at_index (v : Val) (i : nat) : Outcome Val :=
  match v with
  | VUndefined => Rejected (TypeError_reading "undefined" (decimal (Z.of_nat i)))
  | VNull => Rejected (TypeError_reading "null" (decimal (Z.of_nat i)))
  | VArr elems => Fulfilled (nth i elems VUndefined)
  | VStr s => Fulfilled (match String.get i s with
                         | Some c => VStr (String c EmptyString)
                         | None => VUndefined
                         end)
  | VObj fields => Fulfilled (assoc (decimal (Z.of_nat i)) fields)
  | _ => Fulfilled VUndefined
  end.

Fixpoint join (sep : string) (parts : list string) : string :=
  match parts with
  | [] => ""
  | [p] => p
  | p :: rest => p +:+ sep +:+ join sep rest
  end.

(** ToString, as applied by [new Error(v)] and by template literals. *)
Fixpoint to_String (v : Val) : string :=
  match v with
  | VUndefined => "undefined"
  | VNull => "null"
  | VBool true => "true"
  | VBool false => "false"
  | VNum n => decimal n
  | VStr s => s
  | VArr elems =>
      join "," (List.map (fun e => match e with
                                   | VUndefined | VNull => ""
                                   | _ => to_String e
                                   end) elems)
  | VObj _ => "[object Object]"
  end.

(** [s || d] on strings. *)
Definition or_default (s d : string) : string :=
  if String.eqb s "" then d else s.

(** ** Effects: state passing with rejection *)

Definition Eff (S A : Type) : Type := S -> Outcome A * S.

Definition ret {S A} (a : A) : Eff S A := fun s => (Fulfilled a, s).

Definition throw {S A} (e : Error) : Eff S A := fun s => (Rejected e, s).

Definition bind {S A B} (m : Eff S A) (k : A -> Eff S B) : Eff S B :=
  fun s => match m s with
           | (Fulfilled a, s') => k a s'
           | (Rejected e, s') => (Rejected e, s')
           end.

(** [try { body } catch (error) { handler }]. *)
Definition try_catch {S A} (body : Eff S A) (handler : Error -> Eff S A) : Eff S A :=
  fun s => match body s with
           | (Fulfilled a, s') => (Fulfilled a, s')
           | (Rejected e, s') => handler e s'
           end.

(** A pure step that may throw. *)
Definition lift {S A} (o : Outcome A) : Eff S A := fun s => (o, s).

End Js.

Import Js.

Declare Scope eff_scope.
Delimit Scope eff_scope with eff.
Notation "x <- m ;; k" := (bind m (fun x => k))
  (at level 90, m at level 80, right associativity) : eff_scope.
Open Scope eff_scope.

(** [v.key] inside an effectful block: a property read that may throw. *)
Definition prop {S} (v : Val) (key : string) : Eff S Val := lift (member v key).

(** ** Strings: [toLowerCase] and the username pattern *)

Definition in_range (lo hi c : ascii) : bool :=
  (nat_of_ascii lo <=? nat_of_ascii c)%nat && (nat_of_ascii c <=? nat_of_ascii hi)%nat.

Definition is_upper (c : ascii) : bool := in_range "A" "Z" c.

Definition lower_char (c : ascii) : ascii :=
  if is_upper c then ascii_of_nat (nat_of_ascii c + 32) else c.

(** [s.toLowerCase()] on ASCII text; bytes outside [A-Z] are left alone. *)
Fixpoint toLowerCase (s : string) : string :=
  match s with
  | EmptyString => EmptyString
  | String c rest => String (lower_char c) (toLowerCase rest)
  end.

(** The character class [[a-zA-Z0-9_-]]. *)
Definition username_char (c : ascii) : bool :=
  in_range "a" "z" c || in_range "A" "Z" c || in_range "0" "9" c
  || Ascii.eqb c "_" || Ascii.eqb c "-".

Fixpoint all_chars (p : ascii -> bool) (s : string) : bool :=
  match s with
  | EmptyString => true
  | String c rest => p c && all_chars p rest
  end.

(** [/^[a-zA-Z0-9_-]+$/.test(s)]. *)
Definition username_pattern (s : string) : bool :=
  negb (String.eqb s "") && all_chars username_char s.

(** [validateUsername], server.js lines 63-68. *)
Definition validateUsername (username : Val) : bool :=
  if negb (truthy username) || not_a_string username then false
  else match username with
       | VStr s =>
           (3 <=? String.length s)%nat && (String.length s <=? 20)%nat
           && username_pattern s
       | _ => false
       end.

(** Two characters are the same letter up to case: equal, or one is an
    upper-case letter and the other its lower-case form. *)
Definition same_letter (a b : ascii) : bool :=
  Ascii.eqb a b
  || (is_upper a && Ascii.eqb b (lower_char a))
  || (is_upper b && Ascii.eqb a (lower_char b)).

(** Two strings differ only in letter case. *)
Fixpoint differ_only_in_case (s1 s2 : string) : bool :=
  match s1, s2 with
  | EmptyString, EmptyString => true
  | String a r1, String b r2 => same_letter a b && differ_only_in_case r1 r2
  | _, _ => false
  end.


(** ** The world of the server *)

Inductive Method : Type := GET | POST.

(** One request sent with axios: [axios.get(url, { params, timeout })] or
    [axios.post(url, body, { timeout })]. *)
Record Call : Type := {
  method : Method;
  url : string;
  payload : Val;
  timeout : Z
}.

(** What lies outside the cache: the wall clock read by [Date.now()] and the
    log of upstream calls issued so far. *)
Record Net : Type := { now : Z; sent : list Call }.

(** A cache entry, [{ data, timestamp }]. *)
Record Entry : Type := { data : Val; timestamp : Z }.

(** [const cache = new Map()] together with the outside. *)
Record World : Type := { cache : gmap string Entry; net : Net }.

(** An HTTP response: [res.status(code).json(body)]. *)
Record Response : Type := { status : Z; body : Val }.

Definition res_json (b : Val) : Response := {| status := 200; body := b |}.

Definition res_status_json (code : Z) (b : Val) : Response :=
  {| status := code; body := b |}.

(** The same world at a later (or any other) reading of the clock. *)
Definition at_time (t : Z) (w : World) : World :=
  {| cache := cache w; net := {| now := t; sent := sent (net w) |} |}.

Definition Date_now : Eff World Z := fun w => (Fulfilled (now (net w)), w).

Definition cache_get (key : string) : Eff World (option Entry) :=
  fun w => (Fulfilled (cache w !! key), w).

Definition cache_set (key : string) (e : Entry) : Eff World unit :=
  fun w => (Fulfilled tt, {| cache := <[key := e]> (cache w); net := net w |}).

Definition cache_has (key : string) : Eff World bool :=
  fun w => (Fulfilled (bool_decide (is_Some (cache w !! key))), w).

Definition cache_size : Eff World nat :=
  fun w => (Fulfilled (size (cache w)), w).

Definition cache_clear : Eff World unit :=
  fun w => (Fulfilled tt, {| cache := ∅; net := net w |}).

(** [clearCache], server.js lines 56-58. *)
Definition clearCache (key : string) : Eff World unit :=
  fun w => (Fulfilled tt, {| cache := delete key (cache w); net := net w |}).

(** [await p] for an operation [p] that only touches the outside. *)
Definition await {A} (p : Eff Net A) : Eff World A :=
  fun w => let '(r, n) := p (net w) in (r, {| cache := cache w; net := n |}).

(** [const CACHE_DURATION = 5 * 60 * 1000]. *)
Definition CACHE_DURATION : Z := 5 * 60 * 1000.

(** The test [cached && Date.now() - cached.timestamp < duration]. *)
Definition fresh (cached : option Entry) (t duration : Z) : bool :=
  match cached with
  | Some c => (t - timestamp c <? duration)%Z
  | None => false
  end.

(** [getFromCache], server.js lines 41-51.  [duration = None] is the omitted
    third argument, which defaults to [CACHE_DURATION]. *)
Definition getFromCache (key : string) (fn : Eff Net Val) (duration : option Z)
  : Eff World Val :=
  let duration := default CACHE_DURATION duration in
  cached <- cache_get key ;;
  t <- Date_now ;;
  if fresh cached t duration then
    ret (match cached with Some c => data c | None => VUndefined end)
  else
    d <- await fn ;;
    t' <- Date_now ;;
    _ <- cache_set key {| data := d; timestamp := t' |} ;;
    ret d.

(** The world left by a miss: the producer has run; its value, if any, is
    stored under [key] with the time at which it arrived. *)
Definition after_miss (key : string) (fn : Eff Net Val) (w : World)
  : Outcome Val * World :=
  match fn (net w) with
  | (Fulfilled d, n') =>
      (Fulfilled d,
       {| cache := <[key := {| data := d; timestamp := now n' |}]> (cache w);
          net := n' |})
  | (Rejected e, n') => (Rejected e, {| cache := cache w; net := n' |})
  end.

(** ** Cache keys, as the handlers build them *)

(** [`player_${username.toLowerCase()}`], line 96. *)
Definition player_cacheKey (username : string) : string :=
  "player_" +:+ toLowerCase username.

(** [`player_profile_${playerId}`], line 156. *)
Definition player_profile_cacheKey (playerId : string) : string :=
  "player_profile_" +:+ playerId.

(** [`ban_check_${username.toLowerCase()}`], line 247. *)
Definition ban_check_cacheKey (username : string) : string :=
  "ban_check_" +:+ toLowerCase username.

(** [`market_item_${itemId}`], line 419. *)
Definition market_item_cacheKey (itemId : string) : string :=
  "market_item_" +:+ itemId.



(** ** Rate limiter *)

Module RateLimit.

(** The per-client counter, [{ count, windowStart }]. *)
Record RateWindow : Type := { count : nat; windowStart : Z }.

(** [windowMs: 15 * 60 * 1000], line 18. *)
Definition windowMs : Z := 15 * 60 * 1000.

(** [max: 100], line 19. *)
Definition max : nat := 100.

(** Modelled from the spec: the admission step of the rate-limiting
    middleware built by [rateLimit({...})] at lines 17-21; the middleware
    itself comes from the package express-rate-limit, whose code is not part
    of the repository.
    Section 4.4: if [now - windowStart] exceeds the window length the window
    resets ([count = 0], [windowStart = now]); then [count] is incremented
    and the request is admitted if [count <= limit].  A client without a
    window gets a new one that starts now. *)
Definition admission (window : Z) (limit : nat) (clientId : string) (t : Z)
    (table : gmap string RateWindow) : bool * gmap string RateWindow :=
  let current :=
    match table !! clientId with
    | Some w =>
        if (window <? t - windowStart w)%Z
        then {| count := 0; windowStart := t |}
        else w
    | None => {| count := 0; windowStart := t |}
    end in
  let next := {| count := S (count current); windowStart := windowStart current |} in
  ((count next <=? limit)%nat, <[clientId := next]> table).

(** The limiter as configured in [server.js]. *)
Definition limiter : string -> Z -> gmap string RateWindow -> bool * gmap string RateWindow :=
  admission windowMs max.

(** The table after a sequence of requests [(clientId, time)]. *)
Fixpoint serve (window : Z) (limit : nat) (reqs : list (string * Z))
    (table : gmap string RateWindow) : gmap string RateWindow :=
  match reqs with
  | [] => table
  | (c, t) :: rest => serve window limit rest (snd (admission window limit c t table))
  end.

(** The decisions taken for the requests of one client within a sequence of
    requests from any clients. *)
Fixpoint decisions (window : Z) (limit : nat) (clientId : string)
    (reqs : list (string * Z)) (table : gmap string RateWindow) : list bool :=
  match reqs with
  | [] => []
  | (c, t) :: rest =>
      let '(ok, table') := admission window limit c t table in
      if String.eqb c clientId
      then ok :: decisions window limit clientId rest table'
      else decisions window limit clientId rest table'
  end.

(** The times of the requests of one client. *)
Definition times_of (clientId : string) (reqs : list (string * Z)) : list Z :=
  List.map snd (List.filter (fun r => String.eqb (fst r) clientId) reqs).

(** The window of a client is closed at time [t]: there is none, or it has
    run out. *)
Definition closed_at (window : Z) (clientId : string) (t : Z)
    (table : gmap string RateWindow) : bool :=
  match table !! clientId with
  | Some w => (window <? t - windowStart w)%Z
  | None => true
  end.

End RateLimit.

(** ** Sample worlds *)

(** No environment variable is set. *)
Definition no_env : string -> option string := fun _ => None.

(** Every upstream call times out. *)
Definition service_down : Call -> Net -> Z * Outcome Val :=
  fun c _ => (timeout c, Rejected (new_Error "timeout exceeded")).

(** The GraphQL service answers with an error envelope. *)
Definition graphql_errors : Call -> Net -> Z * Outcome Val :=
  fun _ _ => (120, Fulfilled (VObj [("errors",
                 VArr [VObj [("message", VStr "Rate limit exceeded")]])])).

(** The server right after start, at time [t]. *)
Definition started_at (t : Z) : World :=
  {| cache := ∅; net := {| now := t; sent := [] |} |}.

(** A producer that returns [v] after [elapsed] milliseconds. *)
Definition returns (v : Val) (elapsed : Z) : Eff Net Val :=
  fun n => (Fulfilled v, {| now := now n + elapsed; sent := sent n |}).

(** A producer that rejects after [elapsed] milliseconds. *)
Definition rejects (msg : string) (elapsed : Z) : Eff Net Val :=
  fun n => (Rejected (new_Error msg), {| now := now n + elapsed; sent := sent n |}).

(** A world whose only entry, stored at time 0, is read at time [t]. *)
Definition holding (key : string) (v : Val) (t : Z) : World :=
  {| cache := {[ key := {| data := v; timestamp := 0 |} ]};
     net := {| now := t; sent := [] |} |}.

(** The GraphQL service answers with [v] under [field]. *)
Definition graphql_answers (field : string) (v : Val) : Call -> Net -> Z * Outcome Val :=
  fun _ _ => (120, Fulfilled (VObj [("data", VObj [(field, v)])])).

(** The ban service answers with the given members. *)
Definition ban_service_says (fields : list (string * Val))
  : Call -> Net -> Z * Outcome Val :=
  fun _ _ => (30, Fulfilled (VObj fields)).

(** A rendering of clock readings, for the samples. *)
Definition sample_iso (t : Z) : string := "T+" +:+ decimal t +:+ "ms".

(** ** Handlers *)

Section Server.

(** [process.env]. *)
Variable process_env : string -> option string.

(** The remote services: for a call issued in a given state of the outside,
    the time it takes and how the promise settles ([response.data] on
    success; an axios error on a timeout, a transport failure or a non-2xx
    status). *)
Variable upstream : Call -> Net -> Z * Outcome Val.

(** [process.env.NAME || fallback]. *)
Definition env_or (name fallback : string) : string :=
  match process_env name with
  | Some s => or_default s fallback
  | None => fallback
  end.

Definition TARKOV_API_BASE : string :=
  env_or "TARKOV_API_BASE" "https://api.tarkov.dev/graphql".

Definition BAN_CHECK_API : string :=
  env_or "BAN_CHECK_API" "https://tarkovmarketplace.com/api".

(** [await axios(...)], yielding [response.data]. *)
Definition axios (c : Call) : Eff Net Val :=
  fun n => let '(elapsed, settled) := upstream c n in
           (settled, {| now := now n + elapsed; sent := sent n ++ [c] |}).

(** The state of the outside after one axios call. *)
Definition after_call (c : Call) (n : Net) : Net :=
  {| now := now n + fst (upstream c n); sent := sent n ++ [c] |}.

Definition axios_post (target : string) (body : Val) (ms : Z) : Eff Net Val :=
  axios {| method := POST; url := target; payload := body; timeout := ms |}.

Definition axios_get (target : string) (params : Val) (ms : Z) : Eff Net Val :=
  axios {| method := GET; url := target; payload := params; timeout := ms |}.

(** The body of a GraphQL request, [{ query, variables }]. *)
Definition gql (query : string) (variables : list (string * Val)) : Val :=
  VObj [("query", VStr query); ("variables", VObj variables)].

(** The query texts, with the white space of the template literals reduced
    to single blanks. *)
Definition SearchPlayer_query : string :=
  "query SearchPlayer($username: String!) { playerByUsername(username: $username) { id username level experience lastOnline registeredAt wipe } }".

Definition GetPlayer_query : string :=
  "query GetPlayer($id: ID!) { player(id: $id) { id username level experience stats { eft { all { kills deaths kd playtime survivedRaids failedRaids headshots losses earnings } } } lastOnline registeredAt } }".

Definition GetItem_query : string :=
  "query GetItem($id: ID!) { item(id: $id) { id name shortName basePrice averagePrice lastLowPrice lastOfferCount updated wikiLink icon image sellFor { vendor { name price currency } } buyFor { vendor { name price currency level } } } }".

(** The steps shared by the three GraphQL producers, lines 121-125:
    [if (response.data.errors) throw new Error(errors[0].message || fallback);
     return response.data.data[field]]. *)
Definition unwrap_graphql (response_data : Val) (fallback field : string)
  : Eff Net Val :=
  errors <- prop response_data "errors" ;;
  if truthy errors then
    first <- lift (at_index errors 0) ;;
    msg <- prop first "message" ;;
    throw (new_Error (to_String (or_else msg (VStr fallback))))
  else
    payload_data <- prop response_data "data" ;;
    prop payload_data field.

Definition player_search_call (username : Val) : Call :=
  {| method := POST; url := TARKOV_API_BASE;
     payload := gql SearchPlayer_query [("username", username)];
     timeout := 10000 |}.

(** The producer of [/api/player/search], lines 98-126. *)
Definition player_search_producer (username : Val) : Eff Net Val :=
  response_data <- axios (player_search_call username) ;;
  unwrap_graphql response_data "Failed to fetch player data" "playerByUsername".

Definition json_failure (msg : string) : Val :=
  VObj [("error", VStr msg); ("success", VBool false)].

Definition json_success (d : Val) : Val :=
  VObj [("success", VBool true); ("data", d)].

Definition not_a_function (what : string) : Error :=
  new_Error (what +:+ " is not a function").

(** [app.get('/api/player/search')], lines 78-146. *)
Definition player_search (username : Val) : Eff World Response :=
  try_catch
    (if negb (truthy username) then
       ret (res_status_json 400 (json_failure "Username parameter is required"))
     else if negb (validateUsername username) then
       ret (res_status_json 400 (json_failure
         "Invalid username format. Username must be 3-20 characters and contain only alphanumeric characters, hyphens, and underscores."))
     else
       match username with
       | VStr name =>
           let cacheKey := player_cacheKey name in
           playerData <- getFromCache cacheKey (player_search_producer username) None ;;
           if negb (truthy playerData) then
             ret (res_status_json 404 (json_failure "Player not found"))
           else
             ret (res_json (json_success playerData))
       | _ => throw (not_a_function "username.toLowerCase")
       end)
    (fun error =>
       ret (res_status_json 500
              (json_failure (or_default (message error) "Failed to search for player")))).

Definition player_profile_call (playerId : string) : Call :=
  {| method := POST; url := TARKOV_API_BASE;
     payload := gql GetPlayer_query [("id", VStr playerId)];
     timeout := 10000 |}.

(** The producer of [/api/player/:playerId], lines 158-199. *)
Definition player_profile_producer (playerId : string) : Eff Net Val :=
  response_data <- axios (player_profile_call playerId) ;;
  unwrap_graphql response_data "Failed to fetch player profile" "player".

(** [app.get('/api/player/:playerId')], lines 152-219. *)
Definition player_profile (playerId : string) : Eff World Response :=
  try_catch
    (let cacheKey := player_profile_cacheKey playerId in
     playerProfile <- getFromCache cacheKey (player_profile_producer playerId) None ;;
     if negb (truthy playerProfile) then
       ret (res_status_json 404 (json_failure "Player profile not found"))
     else
       ret (res_json (json_success playerProfile)))
    (fun error =>
       ret (res_status_json 500
              (json_failure (or_default (message error) "Failed to fetch player profile")))).

Definition market_item_call (itemId : string) : Call :=
  {| method := POST; url := TARKOV_API_BASE;
     payload := gql GetItem_query [("id", VStr itemId)];
     timeout := 10000 |}.

(** The producer of [/api/market/item/:itemId], lines 421-467. *)
Definition market_item_producer (itemId : string) : Eff Net Val :=
  response_data <- axios (market_item_call itemId) ;;
  unwrap_graphql response_data "Failed to fetch item data" "item".

(** [app.get('/api/market/item/:itemId')], lines 415-487. *)
Definition market_item (itemId : string) : Eff World Response :=
  try_catch
    (let cacheKey := market_item_cacheKey itemId in
     itemData <- getFromCache cacheKey (market_item_producer itemId) None ;;
     if negb (truthy itemData) then
       ret (res_status_json 404 (json_failure "Item not found"))
     else
       ret (res_json (json_success itemData)))
    (fun error =>
       ret (res_status_json 500
              (json_failure (or_default (message error) "Failed to fetch item data")))).

Definition ban_check_call (username : Val) : Call :=
  {| method := GET; url := BAN_CHECK_API +:+ "/check";
     payload := VObj [("username", username)];
     timeout := 8000 |}.

(** The substitute returned when the ban service cannot be asked,
    lines 267-275. *)
Definition ban_check_offline (username : Val) : Val :=
  VObj [("username", username);
        ("isBanned", VBool false);
        ("banReason", VNull);
        ("banDate", VNull);
        ("banType", VStr "unknown");
        ("source", VStr "offline");
        ("note", VStr "Ban check service unavailable, player status unknown")].

(** The producer of [/api/ban-check], lines 249-276. *)
Definition ban_check_producer (username : Val) : Eff Net Val :=
  try_catch
    (response_data <- axios (ban_check_call username) ;;
     banned <- prop response_data "banned" ;;
     reason <- prop response_data "reason" ;;
     bannedAt <- prop response_data "bannedAt" ;;
     banType <- prop response_data "banType" ;;
     source <- prop response_data "source" ;;
     ret (VObj [("username", username);
                ("isBanned", VBool (is_true banned));
                ("banReason", or_else reason VNull);
                ("banDate", or_else bannedAt VNull);
                ("banType", or_else banType (VStr "unknown"));
                ("source", or_else source (VStr "unknown"))]))
    (fun error => ret (ban_check_offline username)).

(** [15 * 60 * 1000], line 277. *)
Definition BAN_CHECK_DURATION : Z := 15 * 60 * 1000.

(** [app.get('/api/ban-check')], lines 229-290. *)
Definition ban_check (username : Val) : Eff World Response :=
  try_catch
    (if negb (truthy username) then
       ret (res_status_json 400 (json_failure "Username parameter is required"))
     else if negb (validateUsername username) then
       ret (res_status_json 400 (json_failure "Invalid username format"))
     else
       match username with
       | VStr name =>
           let cacheKey := ban_check_cacheKey name in
           banStatus <- getFromCache cacheKey (ban_check_producer username)
                          (Some BAN_CHECK_DURATION) ;;
           ret (res_json (json_success banStatus))
       | _ => throw (not_a_function "username.toLowerCase")
       end)
    (fun error =>
       ret (res_status_json 500
              (json_failure (or_default (message error) "Failed to check ban status")))).

(** [process.env.ADMIN_KEY || 'admin-secret-key']. *)
Definition expectedKey : string := env_or "ADMIN_KEY" "admin-secret-key".

Definition unauthorized : Response :=
  res_status_json 401 (json_failure "Unauthorized").

(** [`Cache cleared. ${keyClearedCount} entries removed.`], line 632. *)
Definition cleared_message (keyClearedCount : nat) : string :=
  "Cache cleared. " +:+ decimal (Z.of_nat keyClearedCount) +:+ " entries removed.".

(** [app.post('/api/admin/cache/clear')], lines 616-634.  [adminKey] is
    [req.headers['x-admin-key']]. *)
Definition admin_cache_clear (adminKey : Val) : Eff World Response :=
  if differs_from_string adminKey expectedKey then ret unauthorized
  else
    keyClearedCount <- cache_size ;;
    _ <- cache_clear ;;
    ret (res_json (VObj [("success", VBool true);
                         ("message", VStr (cleared_message keyClearedCount))])).

(** [app.post('/api/admin/cache/clear/:key')], lines 640-663. *)
Definition admin_cache_clear_key (adminKey : Val) (key : string) : Eff World Response :=
  if differs_from_string adminKey expectedKey then ret unauthorized
  else
    existed <- cache_has key ;;
    _ <- (if existed then clearCache key else ret tt) ;;
    ret (res_json (VObj [("success", VBool true);
                         ("message", VStr ("Cache key '" +:+ key +:+ "' cleared."));
                         ("existed", VBool existed)])).


(** *** The hard-path lookups, taken together *)

Inductive HardLookup : Type :=
| PlayerSearch (username : string)
| PlayerProfile (playerId : string)
| ItemLookup (itemId : string).

Definition hard_handler (r : HardLookup) : Eff World Response :=
  match r with
  | PlayerSearch username => player_search (VStr username)
  | PlayerProfile playerId => player_profile playerId
  | ItemLookup itemId => market_item itemId
  end.

Definition hard_cacheKey (r : HardLookup) : string :=
  match r with
  | PlayerSearch username => player_cacheKey username
  | PlayerProfile playerId => player_profile_cacheKey playerId
  | ItemLookup itemId => market_item_cacheKey itemId
  end.

Definition hard_call (r : HardLookup) : Call :=
  match r with
  | PlayerSearch username => player_search_call (VStr username)
  | PlayerProfile playerId => player_profile_call playerId
  | ItemLookup itemId => market_item_call itemId
  end.

(** The request passes the validation in front of the lookup. *)
Definition accepted (r : HardLookup) : bool :=
  match r with
  | PlayerSearch username => validateUsername (VStr username)
  | _ => true
  end.

(** The response carries an error envelope: [response.data.errors] is there
    and truthy. *)
Definition error_envelope (response_data : Val) : bool :=
  match member response_data "errors" with
  | Fulfilled errors => truthy errors
  | Rejected _ => false
  end.

(** The upstream call failed: the request was rejected (timeout, transport,
    status), or the response is an error envelope. *)
Definition upstream_failed (settled : Outcome Val) : bool :=
  match settled with
  | Rejected _ => true
  | Fulfilled response_data => error_envelope response_data
  end.

(** A reported failure: [{ error: msg, success: false }] with a message. *)
Definition reported_failure (r : Response) : Prop :=
  exists msg, msg <> "" /\ r = res_status_json 500 (json_failure msg).

(** The answer of a ban check that fell back to the offline substitute. *)
Definition offline_response (username : Val) : Response :=
  res_json (json_success (ban_check_offline username)).

(** Ban checks for one username, one after the other, at the given times. *)
Fixpoint ban_checks (username : Val) (times : list Z) (w : World)
  : list (Outcome Response) * World :=
  match times with
  | [] => ([], w)
  | t :: rest =>
      let '(r, w') := ban_check username (at_time t w) in
      let '(rs, w'') := ban_checks username rest w' in
      (r :: rs, w'')
  end.

(** *** What a hard-path lookup answers for a cached or fetched value *)

Definition hard_field (r : HardLookup) : string :=
  match r with
  | PlayerSearch _ => "playerByUsername"
  | PlayerProfile _ => "player"
  | ItemLookup _ => "item"
  end.

Definition hard_not_found (r : HardLookup) : Response :=
  res_status_json 404
    (json_failure match r with
                  | PlayerSearch _ => "Player not found"
                  | PlayerProfile _ => "Player profile not found"
                  | ItemLookup _ => "Item not found"
                  end).

(** [if (!value) 404 else { success: true, data: value }]. *)
Definition hard_answer (r : HardLookup) (v : Val) : Response :=
  if negb (truthy v) then hard_not_found r else res_json (json_success v).

(** *** The remaining soft-path handlers *)

(** [new Date(t).toISOString()], the ISO-8601 text of a clock reading. *)
Variable toISOString : Z -> string.

(** [new Date().toISOString()]. *)
Definition Date_toISOString : Eff Net string :=
  fun n => (Fulfilled (toISOString (now n)), n).

Definition ban_stats_call : Call :=
  {| method := GET; url := BAN_CHECK_API +:+ "/stats";
     payload := VUndefined; timeout := 8000 |}.

(** The substitute for the statistics, lines 315-323. *)
Definition ban_stats_unavailable (lastUpdate : string) : Val :=
  VObj [("totalBans", VNum 0);
        ("activeHwidBans", VNum 0);
        ("activeAccountBans", VNum 0);
        ("temporaryBans", VNum 0);
        ("lastUpdate", VStr lastUpdate);
        ("sources", VArr []);
        ("note", VStr "Ban statistics unavailable")].

(** The producer of [/api/ban-stats], lines 300-324. *)
Definition ban_stats_producer : Eff Net Val :=
  try_catch
    (response_data <- axios ban_stats_call ;;
     totalBans <- prop response_data "totalBans" ;;
     activeHwidBans <- prop response_data "activeHwidBans" ;;
     activeAccountBans <- prop response_data "activeAccountBans" ;;
     temporaryBans <- prop response_data "temporaryBans" ;;
     lastUpdate <- Date_toISOString ;;
     sources <- prop response_data "sources" ;;
     ret (VObj [("totalBans", or_else totalBans (VNum 0));
                ("activeHwidBans", or_else activeHwidBans (VNum 0));
                ("activeAccountBans", or_else activeAccountBans (VNum 0));
                ("temporaryBans", or_else temporaryBans (VNum 0));
                ("lastUpdate", VStr lastUpdate);
                ("sources", or_else sources (VArr []))]))
    (fun error =>
       lastUpdate <- Date_toISOString ;;
       ret (ban_stats_unavailable lastUpdate)).

(** [60 * 60 * 1000], lines 325 and 581. *)
Definition ONE_HOUR : Z := 60 * 60 * 1000.

(** [app.get('/api/ban-stats')], lines 296-338. *)
Definition ban_stats : Eff World Response :=
  try_catch
    (let cacheKey := "ban_stats_global" in
     stats <- getFromCache cacheKey ban_stats_producer (Some ONE_HOUR) ;;
     ret (res_json (json_success stats)))
    (fun error =>
       ret (res_status_json 500
              (json_failure (or_default (message error) "Failed to fetch ban statistics")))).






(** A response of the shape [{ success: true, data }] with status 200. *)
Definition is_success (r : Response) : Prop :=
  exists d, r = res_json (json_success d).

(** No entry carries a timestamp ahead of the clock. *)
Definition no_entry_from_the_future (w : World) : Prop :=
  map_Forall (fun _ e => timestamp e <= now (net w)) (cache w).

(** A producer never turns the clock back. *)
Definition clock_monotone (fn : Eff Net Val) : Prop :=
  forall n r n', fn n = (r, n') -> now n <= now n'.

(** What a GraphQL response carries for [field] when it is no error
    envelope and [response.data.data[field]] can be read. *)
Definition graphql_payload (response_data : Val) (field : string) : option Val :=
  if error_envelope response_data then None
  else match member response_data "data" with
       | Fulfilled payload_data =>
           match member payload_data field with
           | Fulfilled v => Some v
           | Rejected _ => None
           end
       | Rejected _ => None
       end.

Definition hard_producer (r : HardLookup) : Eff Net Val :=
  match r with
  | PlayerSearch username => player_search_producer (VStr username)
  | PlayerProfile playerId => player_profile_producer playerId
  | ItemLookup itemId => market_item_producer itemId
  end.

(** The answer of the [catch] block of a hard-path handler. *)
Definition hard_failure (r : HardLookup) (error : Error) : Response :=
  res_status_json 500
    (json_failure (or_default (message error)
                     match r with
                     | PlayerSearch _ => "Failed to search for player"
                     | PlayerProfile _ => "Failed to fetch player profile"
                     | ItemLookup _ => "Failed to fetch item data"
                     end)).

(** The four shapes a hard-path answer can take. *)
Definition hard_response_shape (resp : Response) : Prop :=
  (exists v, truthy v = true /\ resp = res_json (json_success v))
  \/ (exists code msg,
        (code = 400 \/ code = 404 \/ code = 500)
        /\ msg <> ""
        /\ resp = res_status_json code (json_failure msg)).

(** A producer whose promise is never rejected. *)
Definition never_rejects (fn : Eff Net Val) : Prop :=
  forall n, exists v n', fn n = (Fulfilled v, n').

(** * Properties *)

(** ** The TTL cache *)

Ltac unfold_eff :=
  unfold getFromCache, bind, try_catch, ret, throw, lift, prop, await,
    cache_get, cache_set, cache_has, cache_size, cache_clear, clearCache,
    Date_now in *; simpl in *.

Lemma fresh_spec (cached : option Entry) (t duration : Z) :
  fresh cached t duration = true <->
  exists c, cached = Some c /\ t - timestamp c < duration.
Proof.
  unfold fresh. destruct cached as [c|].
  - rewrite Z.ltb_lt. split; [eauto | intros (c' & [= <-] & H); exact H].
  - split; [discriminate | intros (c' & [=] & _)].
Qed.

(** A hit returns the stored data and touches nothing. *)
Lemma getFromCache_hit (key : string) (fn : Eff Net Val) (duration : option Z)
    (w : World) (c : Entry) :
  cache w !! key = Some c ->
  now (net w) - timestamp c < default CACHE_DURATION duration ->
  getFromCache key fn duration w = (Fulfilled (data c), w).
Proof.
  intros Hc Hlt. unfold_eff. rewrite Hc. simpl.
  apply Z.ltb_lt in Hlt. rewrite Hlt. reflexivity.
Qed.

Lemma getFromCache_miss (key : string) (fn : Eff Net Val) (duration : option Z)
    (w : World) :
  fresh (cache w !! key) (now (net w)) (default CACHE_DURATION duration) = false ->
  getFromCache key fn duration w = after_miss key fn w.
Proof.
  intros Hf. unfold after_miss. unfold_eff. rewrite Hf.
  destruct (fn (net w)) as [[d|e] n']; reflexivity.
Qed.

(** C2.  After a resolve whose producer returned [v] has stored [v] under
    [k], a read of [k] under a positive TTL [t], at the store time or later
    but still within [t] of it, returns [v]; the second producer [fn'] is not
    run: the answer does not depend on it and the log of upstream calls is
    the one the first resolve left. *)
Theorem C2_put_then_get (k : string) (v : Val) (t : Z) (fn fn' : Eff Net Val)
    (d0 : option Z) (w : World) (n1 : Net) (t2 : Z) :
  fresh (cache w !! k) (now (net w)) (default CACHE_DURATION d0) = false ->
  fn (net w) = (Fulfilled v, n1) ->
  0 < t -> now n1 <= t2 -> t2 - now n1 < t ->
  let w1 := snd (getFromCache k fn d0 w) in
  cache w1 !! k = Some {| data := v; timestamp := now n1 |}
  /\ getFromCache k fn' (Some t) (at_time t2 w1) = (Fulfilled v, at_time t2 w1)
  /\ sent (net (at_time t2 w1)) = sent n1.
Proof.
  intros Hmiss Hfn Ht Hle Hlt w1. subst w1.
  rewrite (getFromCache_miss _ _ _ _ Hmiss). unfold after_miss. rewrite Hfn.
  simpl. split; [apply lookup_insert_eq|]. split; [|reflexivity].
  rewrite (getFromCache_hit _ _ _ _ {| data := v; timestamp := now n1 |});
    [reflexivity | simpl; apply lookup_insert_eq | simpl; lia].
Qed.

(** C3.  A stored entry whose age has reached the TTL is treated as absent:
    the read runs the producer, with the same outcome and the same effect on
    the outside as on a cache without the key, and a value it returns
    replaces the entry.  Nothing removes the stale entry before that: when
    the producer rejects, the entry is still in the map. *)
Theorem C3_stale_entry (k : string) (c : Entry) (t : Z) (fn : Eff Net Val) (w : World) :
  cache w !! k = Some c ->
  now (net w) - timestamp c >= t ->
  let absent := {| cache := delete k (cache w); net := net w |} in
  getFromCache k fn (Some t) w = after_miss k fn w
  /\ fst (getFromCache k fn (Some t) w) = fst (getFromCache k fn (Some t) absent)
  /\ net (snd (getFromCache k fn (Some t) w)) = net (snd (getFromCache k fn (Some t) absent))
  /\ (forall d n', fn (net w) = (Fulfilled d, n') ->
        cache (snd (getFromCache k fn (Some t) w))
        = <[k := {| data := d; timestamp := now n' |}]> (cache w))
  /\ (forall e n', fn (net w) = (Rejected e, n') ->
        cache (snd (getFromCache k fn (Some t) w)) = cache w
        /\ cache (snd (getFromCache k fn (Some t) w)) !! k = Some c).
Proof.
  intros Hc Hold absent.
  assert (Hw : fresh (cache w !! k) (now (net w)) (default CACHE_DURATION (Some t)) = false).
  { rewrite Hc. simpl. apply Z.ltb_ge. lia. }
  assert (Ha : fresh (cache absent !! k) (now (net absent))
                 (default CACHE_DURATION (Some t)) = false).
  { subst absent. simpl. rewrite lookup_delete_eq. reflexivity. }
  rewrite (getFromCache_miss _ _ _ _ Hw), (getFromCache_miss _ _ _ _ Ha).
  unfold after_miss. subst absent. simpl.
  destruct (fn (net w)) as [[d|e] n'] eqn:Hfn; simpl.
  - split; [reflexivity|]. split; [reflexivity|]. split; [reflexivity|].
    split; [intros ? ? [= <- <-]; reflexivity | intros ? ? [=]].
  - split; [reflexivity|]. split; [reflexivity|]. split; [reflexivity|].
    split; [intros ? ? [=] | intros ? ? _; auto].
Qed.

(** C9.  When the cache holds no fresh entry for [k] and the producer
    rejects, [getFromCache] rejects with the same error and the map is the
    one it was before the call. *)
Theorem C9_rejection_not_cached (k : string) (t : option Z) (fn : Eff Net Val)
    (w : World) (e : Error) (n' : Net) :
  fresh (cache w !! k) (now (net w)) (default CACHE_DURATION t) = false ->
  fn (net w) = (Rejected e, n') ->
  getFromCache k fn t w = (Rejected e, {| cache := cache w; net := n' |}).
Proof.
  intros Hmiss Hfn.
  rewrite (getFromCache_miss _ _ _ _ Hmiss). unfold after_miss.
  rewrite Hfn. reflexivity.
Qed.

(** ** Admin control *)

Lemma differs_from_string_refl (s : string) : differs_from_string (VStr s) s = false.
Proof. simpl. rewrite String.eqb_refl. reflexivity. Qed.

Lemma differs_from_string_neq (v : Val) (s : string) :
  v <> VStr s -> differs_from_string v s = true.
Proof.
  intros Hne. destruct v as [| | | |t| |]; try reflexivity.
  simpl. destruct (String.eqb_spec t s) as [->|]; [contradiction|reflexivity].
Qed.

Lemma decimal_inj (a b : Z) : decimal a = decimal b -> a = b.
Proof.
  unfold decimal. intros H.
  assert (Hnn : forall z, Z.to_int z <> Decimal.Pos Decimal.Nil
                          /\ Z.to_int z <> Decimal.Neg Decimal.Nil).
  { intros [|q|q]; simpl; split; try discriminate;
      intros [= E]; exact (DecimalPos.Unsigned.to_uint_nonnil q E). }
  apply (f_equal NilZero.int_of_string) in H.
  rewrite !NilZero.isi in H by apply Hnn.
  injection H as H. apply (f_equal Z.of_int) in H.
  now rewrite !DecimalZ.of_to in H.
Qed.

Lemma length_append (s t : string) :
  String.length (s +:+ t) = (String.length s + String.length t)%nat.
Proof. induction s as [|c r IH]; simpl; [reflexivity | now rewrite IH]. Qed.

Lemma append_cancel_r (s1 s2 t : string) : s1 +:+ t = s2 +:+ t -> s1 = s2.
Proof.
  revert s2. induction s1 as [|c1 r1 IH]; intros [|c2 r2] H;
    cbn [String.append] in H.
  - reflexivity.
  - apply (f_equal String.length) in H.
    rewrite ?length_append in H. simpl in H. rewrite ?length_append in H. lia.
  - apply (f_equal String.length) in H.
    rewrite ?length_append in H. simpl in H. rewrite ?length_append in H. lia.
  - injection H as -> H. f_equal. now apply IH.
Qed.

Lemma cleared_message_inj (n m : nat) :
  cleared_message n = cleared_message m -> n = m.
Proof.
  unfold cleared_message. intros H.
  assert (Hpre : forall p x y : string, p +:+ x = p +:+ y -> x = y).
  { induction p as [|c p IH]; simpl; intros x y E; [exact E|].
    injection E as E. now apply IH. }
  apply Hpre, append_cancel_r, decimal_inj in H. lia.
Qed.

(** C4.  With the configured secret, clear-all reports the number of entries
    the map held just before the call, in decimal inside its message, and
    leaves the map empty; no other count gives that message. *)
Theorem C4_clear_all_count (w : World) :
  admin_cache_clear (VStr expectedKey) w
  = (Fulfilled
       (res_json (VObj [("success", VBool true);
                        ("message", VStr (cleared_message (size (cache w))))])),
     {| cache := ∅; net := net w |})
  /\ cleared_message (size (cache w))
     = "Cache cleared. " +:+ decimal (Z.of_nat (size (cache w))) +:+ " entries removed."
  /\ (forall n : nat,
        cleared_message n = cleared_message (size (cache w)) -> n = size (cache w)).
Proof.
  split; [|split; [reflexivity | intros n; apply cleared_message_inj]].
  unfold admin_cache_clear. rewrite differs_from_string_refl. reflexivity.
Qed.

(** C5.  With any credential other than the configured secret, clear-all and
    clear-key both answer 401 Unauthorized and leave the world as it was;
    the answer is the same whatever the map holds and whatever key is named.
    With the configured secret, clear-all leaves the map empty. *)
Theorem C5_admin_gate (w : World) (adminKey : Val) (key : string) :
  adminKey <> VStr expectedKey ->
  admin_cache_clear adminKey w = (Fulfilled unauthorized, w)
  /\ admin_cache_clear_key adminKey key w = (Fulfilled unauthorized, w)
  /\ (forall (w2 : World) (key2 : string),
        fst (admin_cache_clear_key adminKey key2 w2)
        = fst (admin_cache_clear_key adminKey key w))
  /\ cache (snd (admin_cache_clear (VStr expectedKey) w)) = ∅.
Proof.
  intros Hne. unfold admin_cache_clear, admin_cache_clear_key.
  rewrite (differs_from_string_neq _ _ Hne), differs_from_string_refl.
  repeat split; reflexivity.
Qed.

(** ** Hard path: upstream failures are reported *)

Lemma or_default_nonempty (s d : string) : d <> "" -> or_default s d <> "".
Proof.
  intros Hd. unfold or_default.
  destruct (String.eqb_spec s "") as [->|Hs]; assumption.
Qed.

Lemma at_index_truthy (v : Val) (i : nat) :
  truthy v = true -> exists first, at_index v i = Fulfilled first.
Proof.
  destruct v; simpl; try discriminate; intros _; eauto.
Qed.

(** An error envelope makes the GraphQL producers throw, whatever shape the
    [errors] member has. *)
Lemma unwrap_graphql_envelope (response_data : Val) (fallback field : string) :
  error_envelope response_data = true ->
  exists e, forall n, unwrap_graphql response_data fallback field n = (Rejected e, n).
Proof.
  unfold error_envelope, unwrap_graphql. unfold_eff.
  destruct (member response_data "errors") as [errors|] eqn:Herr; [|discriminate].
  intros Ht. rewrite Ht.
  destruct (at_index_truthy errors 0 Ht) as [first ->].
  destruct (member first "message") as [msg|e']; eauto.
Qed.

Lemma graphql_producer_fails (c : Call) (fallback field : string) (n : Net) :
  upstream_failed (snd (upstream c n)) = true ->
  exists e,
    bind (axios c) (fun response_data => unwrap_graphql response_data fallback field) n
    = (Rejected e, after_call c n).
Proof.
  unfold bind, axios, after_call, upstream_failed.
  destruct (upstream c n) as [elapsed [d|e]]; simpl; [|eauto].
  intros Henv. destruct (unwrap_graphql_envelope d fallback field Henv) as [e He].
  exists e. apply He.
Qed.

Lemma hard_producer_reported (key : string) (c : Call) (fallback field : string)
    (on_value : Val -> Eff World Response) (generic : string) (w : World) :
  generic <> "" ->
  fresh (cache w !! key) (now (net w)) CACHE_DURATION = false ->
  upstream_failed (snd (upstream c (net w))) = true ->
  exists r,
    reported_failure r /\
    try_catch
      (bind (getFromCache key
               (bind (axios c) (fun d => unwrap_graphql d fallback field)) None)
            on_value)
      (fun error =>
         ret (res_status_json 500 (json_failure (or_default (message error) generic)))) w
    = (Fulfilled r, {| cache := cache w; net := after_call c (net w) |}).
Proof.
  intros Hg Hmiss Hfail.
  destruct (graphql_producer_fails c fallback field (net w) Hfail) as [e He].
  pose proof (Hget := getFromCache_miss key
    (bind (axios c) (fun d => unwrap_graphql d fallback field)) None w Hmiss).
  unfold after_miss in Hget. rewrite He in Hget.
  eexists. split; [exists (or_default (message e) generic); split;
                   [apply or_default_nonempty, Hg | reflexivity]|].
  unfold try_catch, bind at 1. rewrite Hget. reflexivity.
Qed.

(** C6.  On the hard path (player search, player profile, item lookup), when
    the request is accepted, the cache cannot answer and the upstream call
    fails (the request is rejected, or the response is an error envelope),
    the caller gets status 500 with [success: false] and a non-empty error
    message; no substitute value is produced and none is stored. *)
Theorem C6_hard_path_reports (r : HardLookup) (w : World) :
  accepted r = true ->
  fresh (cache w !! hard_cacheKey r) (now (net w)) CACHE_DURATION = false ->
  upstream_failed (snd (upstream (hard_call r) (net w))) = true ->
  exists resp,
    hard_handler r w
    = (Fulfilled resp, {| cache := cache w; net := after_call (hard_call r) (net w) |})
    /\ reported_failure resp
    /\ member (body resp) "success" = Fulfilled (VBool false).
Proof.
  intros Hacc Hmiss Hfail.
  assert (Hbody : forall resp, reported_failure resp ->
            member (body resp) "success" = Fulfilled (VBool false)).
  { intros resp (msg & _ & ->). reflexivity. }
  destruct r as [username|playerId|itemId]; simpl in *.
  - unfold player_search.
    assert (Htr : truthy (VStr username) = true).
    { unfold validateUsername in Hacc.
      destruct (truthy (VStr username)); [reflexivity|discriminate]. }
    rewrite Htr, Hacc. simpl negb. cbv iota.
    edestruct (hard_producer_reported (player_cacheKey username)
                 (player_search_call (VStr username))) as (resp & Hrep & Heq);
      [| exact Hmiss | exact Hfail | exists resp; split; [exact Heq | auto]].
    discriminate.
  - unfold player_profile.
    edestruct (hard_producer_reported (player_profile_cacheKey playerId)
                 (player_profile_call playerId)) as (resp & Hrep & Heq);
      [| exact Hmiss | exact Hfail | exists resp; split; [exact Heq | auto]].
    discriminate.
  - unfold market_item.
    edestruct (hard_producer_reported (market_item_cacheKey itemId)
                 (market_item_call itemId)) as (resp & Hrep & Heq);
      [| exact Hmiss | exact Hfail | exists resp; split; [exact Heq | auto]].
    discriminate.
Qed.

(** ** Soft path: the ban check *)

Lemma validateUsername_truthy (username : Val) :
  validateUsername username = true -> truthy username = true.
Proof.
  unfold validateUsername. destruct (truthy username); [reflexivity|discriminate].
Qed.

Lemma ban_check_producer_offline (username : Val) (n : Net) (elapsed : Z) (e : Error) :
  upstream (ban_check_call username) n = (elapsed, Rejected e) ->
  ban_check_producer username n
  = (Fulfilled (ban_check_offline username), after_call (ban_check_call username) n).
Proof.
  intros Hup. unfold ban_check_producer, after_call, try_catch, bind, axios, ret.
  rewrite Hup. reflexivity.
Qed.

Lemma ban_check_miss_offline (name : string) (w : World) (elapsed : Z) (e : Error) :
  validateUsername (VStr name) = true ->
  fresh (cache w !! ban_check_cacheKey name) (now (net w)) BAN_CHECK_DURATION = false ->
  upstream (ban_check_call (VStr name)) (net w) = (elapsed, Rejected e) ->
  ban_check (VStr name) w
  = (Fulfilled (offline_response (VStr name)),
     {| cache := <[ban_check_cacheKey name :=
                    {| data := ban_check_offline (VStr name);
                       timestamp := now (net w) + elapsed |}]> (cache w);
        net := after_call (ban_check_call (VStr name)) (net w) |}).
Proof.
  intros Hval Hmiss Hup. unfold ban_check.
  rewrite (validateUsername_truthy _ Hval), Hval. simpl negb. cbv iota.
  unfold try_catch, bind at 1.
  rewrite (getFromCache_miss _ _ (Some BAN_CHECK_DURATION) w Hmiss).
  unfold after_miss. rewrite (ban_check_producer_offline _ _ _ _ Hup).
  unfold after_call. rewrite Hup. reflexivity.
Qed.

Lemma ban_check_hit (name : string) (w : World) (c : Entry) :
  validateUsername (VStr name) = true ->
  cache w !! ban_check_cacheKey name = Some c ->
  now (net w) - timestamp c < BAN_CHECK_DURATION ->
  ban_check (VStr name) w = (Fulfilled (res_json (json_success (data c))), w).
Proof.
  intros Hval Hc Hlt. unfold ban_check.
  rewrite (validateUsername_truthy _ Hval), Hval. simpl negb. cbv iota.
  unfold try_catch, bind at 1.
  rewrite (getFromCache_hit _ _ (Some BAN_CHECK_DURATION) w c Hc Hlt).
  reflexivity.
Qed.

(** C7.  A ban check for a valid username that has to ask the ban service
    (the cache holds no fresh answer) and whose call is rejected (a timeout,
    for one) is answered with status 200 and [success: true]; the data has
    [isBanned: false], [source: "offline"] and a note saying that the
    service was unavailable. *)
Theorem C7_ban_check_degrades (name : string) (w : World) (elapsed : Z) (e : Error) :
  validateUsername (VStr name) = true ->
  fresh (cache w !! ban_check_cacheKey name) (now (net w)) BAN_CHECK_DURATION = false ->
  upstream (ban_check_call (VStr name)) (net w) = (elapsed, Rejected e) ->
  exists resp banStatus,
    fst (ban_check (VStr name) w) = Fulfilled resp
    /\ status resp = 200
    /\ member (body resp) "success" = Fulfilled (VBool true)
    /\ member (body resp) "data" = Fulfilled banStatus
    /\ member banStatus "isBanned" = Fulfilled (VBool false)
    /\ member banStatus "source" = Fulfilled (VStr "offline")
    /\ member banStatus "note"
       = Fulfilled (VStr "Ban check service unavailable, player status unknown").
Proof.
  intros Hval Hmiss Hup.
  rewrite (ban_check_miss_offline name w elapsed e Hval Hmiss Hup).
  exists (offline_response (VStr name)), (ban_check_offline (VStr name)).
  repeat split.
Qed.

Lemma ban_checks_served_from_cache (name : string) (c : Entry) (times : list Z) (w : World) :
  validateUsername (VStr name) = true ->
  cache w !! ban_check_cacheKey name = Some c ->
  Forall (fun t => timestamp c <= t /\ t - timestamp c < BAN_CHECK_DURATION) times ->
  fst (ban_checks (VStr name) times w)
  = List.map (fun _ => Fulfilled (res_json (json_success (data c)))) times
  /\ cache (snd (ban_checks (VStr name) times w)) = cache w
  /\ sent (net (snd (ban_checks (VStr name) times w))) = sent (net w).
Proof.
  intros Hval. revert w.
  induction times as [|t rest IH]; intros w Hc Hall; [repeat split|].
  inversion Hall as [|? ? [_ Ht] Hrest]; subst.
  cbn [ban_checks].
  rewrite (ban_check_hit name (at_time t w) c Hval); [|exact Hc|simpl; exact Ht].
  destruct (IH (at_time t w) Hc Hrest) as (Hr & Hcache & Hsent).
  destruct (ban_checks (VStr name) rest (at_time t w)) as [rs w''].
  simpl in *. rewrite Hr. auto.
Qed.

(** C10.  The offline substitute is cached like any other result: after a
    ban check whose upstream call was rejected, the substitute sits under the
    ban-check key of the username, stamped with the time it was produced;
    every later ban check for that username within the 15 minutes gets the
    same answer, and the log of upstream calls stays at the single call of
    the first request. *)
Theorem C10_degraded_result_cached (name : string) (w : World) (elapsed : Z)
    (e : Error) (times : list Z) :
  validateUsername (VStr name) = true ->
  fresh (cache w !! ban_check_cacheKey name) (now (net w)) BAN_CHECK_DURATION = false ->
  upstream (ban_check_call (VStr name)) (net w) = (elapsed, Rejected e) ->
  let stored := now (net w) + elapsed in
  Forall (fun t => stored <= t /\ t - stored < 15 * 60 * 1000) times ->
  let w1 := snd (ban_check (VStr name) w) in
  cache w1 !! ban_check_cacheKey name
  = Some {| data := ban_check_offline (VStr name); timestamp := stored |}
  /\ fst (ban_checks (VStr name) times w1)
     = List.map (fun _ => Fulfilled (offline_response (VStr name))) times
  /\ cache (snd (ban_checks (VStr name) times w1)) = cache w1
  /\ sent (net (snd (ban_checks (VStr name) times w1)))
     = (sent (net w) ++ [ban_check_call (VStr name)])%list.
Proof.
  intros Hval Hmiss Hup stored Hall w1. subst w1 stored.
  rewrite (ban_check_miss_offline name w elapsed e Hval Hmiss Hup). simpl snd.
  set (c := {| data := ban_check_offline (VStr name);
               timestamp := now (net w) + elapsed |}).
  set (w1 := {| cache := <[ban_check_cacheKey name := c]> (cache w);
                net := after_call (ban_check_call (VStr name)) (net w) |}).
  assert (Hc : cache w1 !! ban_check_cacheKey name = Some c)
    by apply lookup_insert_eq.
  split; [exact Hc|].
  destruct (ban_checks_served_from_cache name c times w1 Hval Hc Hall)
    as (Hr & Hcache & Hsent).
  split; [exact Hr|]. split; [exact Hcache|]. rewrite Hsent. reflexivity.
Qed.

(** ** Cache keys *)

Lemma is_upper_bounds (c : ascii) :
  is_upper c = true -> (65 <= nat_of_ascii c <= 90)%nat.
Proof.
  unfold is_upper, in_range. intros H.
  apply andb_true_iff in H as [H1 H2].
  apply Nat.leb_le in H1, H2.
  change (nat_of_ascii "A") with 65%nat in H1.
  change (nat_of_ascii "Z") with 90%nat in H2. lia.
Qed.

Lemma nat_of_lower_char (c : ascii) :
  is_upper c = true -> nat_of_ascii (lower_char c) = (nat_of_ascii c + 32)%nat.
Proof.
  intros H. unfold lower_char. rewrite H.
  apply nat_ascii_embedding. apply is_upper_bounds in H. lia.
Qed.

Lemma lower_char_not_upper (c : ascii) : is_upper (lower_char c) = false.
Proof.
  destruct (is_upper c) eqn:Hc.
  - unfold is_upper, in_range. rewrite (nat_of_lower_char c Hc).
    apply is_upper_bounds in Hc.
    change (nat_of_ascii "Z") with 90%nat.
    apply andb_false_iff. right. apply Nat.leb_gt. lia.
  - unfold lower_char. rewrite Hc. exact Hc.
Qed.

Lemma lower_char_idem (c : ascii) : lower_char (lower_char c) = lower_char c.
Proof.
  unfold lower_char at 1. rewrite lower_char_not_upper. reflexivity.
Qed.

Lemma lower_char_inj_upper (a b : ascii) :
  is_upper a = true -> is_upper b = true ->
  lower_char a = lower_char b -> a = b.
Proof.
  intros Ha Hb Heq. apply (f_equal nat_of_ascii) in Heq.
  rewrite (nat_of_lower_char a Ha), (nat_of_lower_char b Hb) in Heq.
  rewrite <- (ascii_nat_embedding a), <- (ascii_nat_embedding b).
  f_equal. lia.
Qed.

Lemma same_letter_spec (a b : ascii) :
  same_letter a b = true <-> lower_char a = lower_char b.
Proof.
  unfold same_letter.
  rewrite !orb_true_iff, !andb_true_iff, !Ascii.eqb_eq. split.
  - intros [[->|[_ ->]]|[_ ->]]; now rewrite ?lower_char_idem.
  - intros Heq.
    destruct (is_upper a) eqn:Ha, (is_upper b) eqn:Hb.
    + left; left. exact (lower_char_inj_upper a b Ha Hb Heq).
    + left; right. split; [reflexivity|].
      rewrite Heq. unfold lower_char. now rewrite Hb.
    + right. split; [reflexivity|].
      rewrite <- Heq. unfold lower_char. now rewrite Ha.
    + left; left. unfold lower_char in Heq. now rewrite Ha, Hb in Heq.
Qed.

Lemma differ_only_in_case_spec (s1 s2 : string) :
  differ_only_in_case s1 s2 = true <-> toLowerCase s1 = toLowerCase s2.
Proof.
  revert s2. induction s1 as [|a r1 IH]; intros [|b r2]; simpl;
    try (split; [discriminate | intros [=]]); [tauto|].
  rewrite andb_true_iff, same_letter_spec, IH.
  split; [intros [-> ->]; reflexivity | intros [= -> ->]; auto].
Qed.




(** ** Rate limiter *)

Import RateLimit.

Lemma admission_other (window : Z) (limit : nat) (c c' : string) (t : Z)
    (table : gmap string RateWindow) :
  c' <> c -> snd (admission window limit c' t table) !! c = table !! c.
Proof. intros Hne. unfold admission. simpl. now rewrite lookup_insert_ne. Qed.

(** A request inside the running window counts one more and is admitted
    while the count stays within the limit. *)
Lemma admission_in_window (window : Z) (limit : nat) (c : string) (t : Z)
    (table : gmap string RateWindow) (n : nat) (t0 : Z) :
  table !! c = Some {| count := n; windowStart := t0 |} ->
  t - t0 <= window ->
  admission window limit c t table
  = ((S n <=? limit)%nat, <[c := {| count := S n; windowStart := t0 |}]> table).
Proof.
  intros Hw Hin. unfold admission. rewrite Hw. simpl.
  destruct (Z.ltb_spec window (t - t0)); [lia|reflexivity].
Qed.

(** A request that finds the window closed starts a new one at count 1. *)
Lemma admission_reset (window : Z) (limit : nat) (c : string) (t : Z)
    (table : gmap string RateWindow) :
  closed_at window c t table = true ->
  admission window limit c t table
  = ((1 <=? limit)%nat, <[c := {| count := 1; windowStart := t |}]> table).
Proof.
  unfold closed_at, admission. destruct (table !! c) as [w|]; [|reflexivity].
  intros ->. reflexivity.
Qed.

Lemma decisions_cons (window : Z) (limit : nat) (c c' : string) (t : Z)
    (rest : list (string * Z)) (table : gmap string RateWindow) :
  decisions window limit c ((c', t) :: rest) table
  = if String.eqb c' c
    then fst (admission window limit c' t table)
         :: decisions window limit c rest (snd (admission window limit c' t table))
    else decisions window limit c rest (snd (admission window limit c' t table)).
Proof.
  cbn [decisions]. destruct (admission window limit c' t table). reflexivity.
Qed.

Lemma times_of_cons (c c' : string) (t : Z) (rest : list (string * Z)) :
  times_of c ((c', t) :: rest)
  = if String.eqb c' c then t :: times_of c rest else times_of c rest.
Proof. unfold times_of. simpl. destruct (String.eqb c' c); reflexivity. Qed.

Lemma decisions_in_window (window : Z) (limit : nat) (c : string)
    (reqs : list (string * Z)) :
  forall (table : gmap string RateWindow) (n : nat) (t0 : Z),
    table !! c = Some {| count := n; windowStart := t0 |} ->
    Forall (fun t => t - t0 <= window) (times_of c reqs) ->
    let k := length (times_of c reqs) in
    decisions window limit c reqs table
    = (repeat true (Nat.min k (limit - n)) ++ repeat false (k - (limit - n)))%list
    /\ serve window limit reqs table !! c
       = Some {| count := n + k; windowStart := t0 |}.
Proof.
  induction reqs as [|[c' t] rest IH]; intros table n t0 Hw Hall.
  - simpl. rewrite Nat.add_0_r. auto.
  - cbv zeta. rewrite decisions_cons, times_of_cons in *. cbn [serve].
    destruct (String.eqb_spec c' c) as [->|Hne].
    + inversion Hall as [|? ? Ht Hrest]; subst.
      rewrite (admission_in_window _ _ _ _ _ _ _ Hw Ht). cbn [fst snd length].
      destruct (IH (<[c := {| count := S n; windowStart := t0 |}]> table) (S n) t0)
        as [Hd Hs]; [apply lookup_insert_eq | exact Hrest |].
      rewrite Hd, Hs. split; [|do 2 f_equal; lia].
      destruct (Nat.leb_spec (S n) limit) as [Hle|Hgt].
      * replace (limit - n)%nat with (S (limit - S n)) by lia. reflexivity.
      * replace (limit - n)%nat with 0%nat by lia.
        replace (limit - S n)%nat with 0%nat by lia.
        rewrite !Nat.min_0_r, !Nat.sub_0_r. reflexivity.
    + apply IH; [|exact Hall]. rewrite <- Hw. now apply admission_other.
Qed.

(** C8.  For any client and any sequence of requests, of this client and of
    others: when a request of the client at [t0] finds its window closed and
    its further requests keep within the window length of [t0], the first
    [limit] of them are admitted and all the others are rejected, the
    request after the [limit]-th in particular; the counter has counted
    every one of them.  A request that arrives once more than the window
    length has passed since [t0] starts a new window at count 1, and is
    admitted as soon as the limit is at least 1. *)
Theorem C8_rate_limiter (window : Z) (limit : nat) (c : string) (t0 t' : Z)
    (reqs : list (string * Z)) (table : gmap string RateWindow) :
  closed_at window c t0 table = true ->
  Forall (fun t => t - t0 <= window) (times_of c reqs) ->
  window < t' - t0 ->
  let k := S (length (times_of c reqs)) in
  let ds := decisions window limit c ((c, t0) :: reqs) table in
  let table' := serve window limit ((c, t0) :: reqs) table in
  ds = (repeat true (Nat.min k limit) ++ repeat false (k - limit))%list
  /\ (limit < k -> ds !! limit = Some false)%nat
  /\ table' !! c = Some {| count := k; windowStart := t0 |}
  /\ admission window limit c t' table'
     = ((1 <=? limit)%nat, <[c := {| count := 1; windowStart := t' |}]> table').
Proof.
  intros Hclosed Hall Hlate k ds table'.
  assert (Hds : ds = (repeat true (Nat.min k limit) ++ repeat false (k - limit))%list
                /\ table' !! c = Some {| count := k; windowStart := t0 |}).
  { subst ds table' k. rewrite decisions_cons, String.eqb_refl. cbn [serve].
    rewrite (admission_reset _ _ _ _ _ Hclosed). cbn [fst snd].
    destruct (decisions_in_window window limit c reqs
                (<[c := {| count := 1; windowStart := t0 |}]> table) 1 t0)
      as [Hd Hs]; [apply lookup_insert_eq | exact Hall |].
    rewrite Hd, Hs. split; [|reflexivity].
    destruct limit as [|m]; simpl.
    - rewrite Nat.min_0_r, Nat.sub_0_r. reflexivity.
    - rewrite Nat.sub_0_r. reflexivity. }
  destruct Hds as [Hds Htable]. split; [exact Hds|]. split; [|split; [exact Htable|]].
  - intros Hk. rewrite Hds, Nat.min_r by lia.
    rewrite lookup_app_r; rewrite repeat_length; [|lia].
    rewrite Nat.sub_diag. destruct (k - limit)%nat eqn:E; [lia|reflexivity].
  - apply admission_reset. unfold closed_at. rewrite Htable. simpl.
    now apply Z.ltb_lt.
Qed.

(** * Further properties of the code *)

(** ** The cache beyond the key that is read *)

Lemma getFromCache_cache (k : string) (fn : Eff Net Val) (d : option Z) (w : World) :
  cache (snd (getFromCache k fn d w)) = cache w
  \/ exists v n', fn (net w) = (Fulfilled v, n')
       /\ cache (snd (getFromCache k fn d w))
          = <[k := {| data := v; timestamp := now n' |}]> (cache w).
Proof.
  destruct (fresh (cache w !! k) (now (net w)) (default CACHE_DURATION d)) eqn:Hf.
  - apply fresh_spec in Hf as (c & Hc & Hlt).
    rewrite (getFromCache_hit k fn d w c Hc Hlt). auto.
  - rewrite (getFromCache_miss k fn d w Hf). unfold after_miss.
    destruct (fn (net w)) as [[v|e] n'] eqn:Hfn; simpl; eauto.
Qed.

(** A read of [k] leaves every other key as it was, whether it hits, misses
    or fails. *)
Theorem getFromCache_other_keys (k k' : string) (fn : Eff Net Val) (d : option Z)
    (w : World) :
  k' <> k ->
  cache (snd (getFromCache k fn d w)) !! k' = cache w !! k'.
Proof.
  intros Hne.
  destruct (getFromCache_cache k fn d w) as [->|(v & n' & _ & ->)];
    [reflexivity | now apply lookup_insert_ne].
Qed.

(** A read never removes an entry and adds at most the key it reads. *)
Theorem getFromCache_domain (k : string) (fn : Eff Net Val) (d : option Z) (w : World) :
  dom (cache w) ⊆ dom (cache (snd (getFromCache k fn d w)))
  /\ dom (cache (snd (getFromCache k fn d w))) ⊆ dom (cache w) ∪ {[k]}.
Proof.
  destruct (getFromCache_cache k fn d w) as [->|(v & n' & _ & ->)].
  - split; [reflexivity | apply union_subseteq_l].
  - rewrite dom_insert_L. split; [apply union_subseteq_r|].
    rewrite (comm_L (∪) {[k]}). reflexivity.
Qed.

(** Two reads in a row agree: when a read under a positive TTL returns [v],
    a second read of the same key under that TTL, made before the clock
    moves, returns [v] again and leaves the world alone, whatever producer
    it is given. *)
Theorem getFromCache_twice (k : string) (fn fn' : Eff Net Val) (d : option Z)
    (w w1 : World) (v : Val) :
  0 < default CACHE_DURATION d ->
  getFromCache k fn d w = (Fulfilled v, w1) ->
  getFromCache k fn' d w1 = (Fulfilled v, w1).
Proof.
  intros Hpos Hfirst.
  destruct (fresh (cache w !! k) (now (net w)) (default CACHE_DURATION d)) eqn:Hf.
  - apply fresh_spec in Hf as (c & Hc & Hlt).
    rewrite (getFromCache_hit k fn d w c Hc Hlt) in Hfirst.
    injection Hfirst as <- <-. now apply getFromCache_hit.
  - rewrite (getFromCache_miss k fn d w Hf) in Hfirst. unfold after_miss in Hfirst.
    destruct (fn (net w)) as [[v0|e] n'] eqn:Hfn; [|discriminate].
    injection Hfirst as <- <-.
    rewrite (getFromCache_hit k fn' d _ {| data := v0; timestamp := now n' |});
      [reflexivity | apply lookup_insert_eq | simpl; lia].
Qed.

(** With a clock that producers never turn back, no read ever leaves an
    entry stamped ahead of the clock. *)
Theorem getFromCache_keeps_timestamps_in_the_past (k : string) (fn : Eff Net Val)
    (d : option Z) (w : World) :
  clock_monotone fn ->
  no_entry_from_the_future w ->
  no_entry_from_the_future (snd (getFromCache k fn d w)).
Proof.
  intros Hmono Hinv. unfold no_entry_from_the_future in *.
  destruct (fresh (cache w !! k) (now (net w)) (default CACHE_DURATION d)) eqn:Hf.
  - apply fresh_spec in Hf as (c & Hc & Hlt).
    now rewrite (getFromCache_hit k fn d w c Hc Hlt).
  - rewrite (getFromCache_miss k fn d w Hf). unfold after_miss.
    destruct (fn (net w)) as [[v|e] n'] eqn:Hfn; simpl;
      pose proof (Hmono _ _ _ Hfn) as Hle.
    + apply map_Forall_insert_2; [simpl; lia|].
      eapply map_Forall_impl; [exact Hinv|]. simpl. intros; lia.
    + eapply map_Forall_impl; [exact Hinv|]. simpl. intros; lia.
Qed.

(** Under a TTL of zero or less nothing is ever fresh: with no entry stamped
    ahead of the clock, every read runs the producer. *)
Theorem getFromCache_no_ttl_no_hit (k : string) (fn : Eff Net Val) (t : Z) (w : World) :
  t <= 0 ->
  no_entry_from_the_future w ->
  getFromCache k fn (Some t) w = after_miss k fn w.
Proof.
  intros Ht Hinv. apply getFromCache_miss. simpl.
  destruct (cache w !! k) as [c|] eqn:Hc; [|reflexivity].
  simpl. apply Z.ltb_ge. pose proof (Hinv k c Hc) as Hle. simpl in Hle. lia.
Qed.

(** ** Clearing one key, and the admin secret *)

Lemma world_eta (w : World) : {| cache := cache w; net := net w |} = w.
Proof. destruct w. reflexivity. Qed.

(** With the configured secret, clear-key reports whether the key was there
    and leaves the map without it; the guarded [clearCache] amounts to a
    plain delete, so no other entry changes. *)
Theorem admin_cache_clear_key_deletes (key : string) (w : World) :
  admin_cache_clear_key (VStr expectedKey) key w
  = (Fulfilled
       (res_json (VObj [("success", VBool true);
                        ("message", VStr ("Cache key '" +:+ key +:+ "' cleared."));
                        ("existed", VBool (bool_decide (is_Some (cache w !! key))))])),
     {| cache := delete key (cache w); net := net w |}).
Proof.
  unfold admin_cache_clear_key. rewrite differs_from_string_refl.
  unfold bind, cache_has, clearCache, ret. simpl.
  destruct (cache w !! key) as [e|] eqn:Hk.
  - rewrite bool_decide_eq_true_2 by eauto. reflexivity.
  - rewrite bool_decide_eq_false_2 by (intros [e He]; discriminate).
    rewrite delete_id by exact Hk. rewrite world_eta. reflexivity.
Qed.

(** Clearing a key that holds an entry removes exactly that entry: the key
    is gone, the map is one entry smaller, and the answer says
    [existed: true]. *)
Theorem admin_cache_clear_key_present (key : string) (e : Entry) (w : World) :
  cache w !! key = Some e ->
  exists w',
    admin_cache_clear_key (VStr expectedKey) key w
    = (Fulfilled
         (res_json (VObj [("success", VBool true);
                          ("message", VStr ("Cache key '" +:+ key +:+ "' cleared."));
                          ("existed", VBool true)])),
       w')
    /\ cache w' !! key = None
    /\ S (size (cache w')) = size (cache w)
    /\ (forall k', k' <> key -> cache w' !! k' = cache w !! k')
    /\ net w' = net w.
Proof.
  intros Hk. exists {| cache := delete key (cache w); net := net w |}.
  rewrite admin_cache_clear_key_deletes. simpl.
  rewrite bool_decide_eq_true_2 by eauto.
  split; [reflexivity|]. split; [apply lookup_delete_eq|]. split; [|split].
  - rewrite map_size_delete_Some by eauto.
    assert (size (cache w) <> 0)%nat.
    { intros H0. apply map_size_empty_inv in H0. rewrite H0 in Hk.
      rewrite lookup_empty in Hk. discriminate. }
    lia.
  - intros k' Hne. now apply lookup_delete_ne.
  - reflexivity.
Qed.

(** Clearing a key that holds no entry changes nothing and answers
    [existed: false]. *)
Theorem admin_cache_clear_key_absent (key : string) (w : World) :
  cache w !! key = None ->
  admin_cache_clear_key (VStr expectedKey) key w
  = (Fulfilled
       (res_json (VObj [("success", VBool true);
                        ("message", VStr ("Cache key '" +:+ key +:+ "' cleared."));
                        ("existed", VBool false)])),
     w).
Proof.
  intros Hk. rewrite admin_cache_clear_key_deletes, Hk.
  rewrite bool_decide_eq_false_2 by (intros [e He]; discriminate).
  rewrite delete_id by exact Hk. rewrite world_eta. reflexivity.
Qed.

Lemma env_or_nonempty (name fallback : string) :
  fallback <> "" -> env_or name fallback <> "".
Proof.
  intros Hf. unfold env_or. destruct (process_env name) as [s|]; [|exact Hf].
  now apply or_default_nonempty.
Qed.

(** Whatever the environment holds, a request whose [x-admin-key] header is
    missing, empty or not a string is refused by both admin endpoints: the
    expected key is never the empty string. *)
Theorem admin_refuses_without_key (adminKey : Val) (key : string) (w : World) :
  (forall s, adminKey = VStr s -> s = "") ->
  admin_cache_clear adminKey w = (Fulfilled unauthorized, w)
  /\ admin_cache_clear_key adminKey key w = (Fulfilled unauthorized, w).
Proof.
  intros Hk.
  assert (Hne : adminKey <> VStr expectedKey).
  { intros Heq. apply (env_or_nonempty "ADMIN_KEY" "admin-secret-key");
      [discriminate|]. exact (Hk _ Heq). }
  unfold admin_cache_clear, admin_cache_clear_key.
  rewrite (differs_from_string_neq _ _ Hne). split; reflexivity.
Qed.

(** When [ADMIN_KEY] is unset or empty, the key written in the source,
    [admin-secret-key], is the secret: presenting it empties the cache. *)
Theorem admin_default_secret (w : World) :
  process_env "ADMIN_KEY" = None \/ process_env "ADMIN_KEY" = Some "" ->
  expectedKey = "admin-secret-key"
  /\ cache (snd (admin_cache_clear (VStr "admin-secret-key") w)) = ∅.
Proof.
  intros Henv.
  assert (Hkey : expectedKey = "admin-secret-key").
  { unfold expectedKey, env_or. destruct Henv as [-> | ->]; reflexivity. }
  split; [exact Hkey|].
  unfold admin_cache_clear.
  replace (differs_from_string (VStr "admin-secret-key") expectedKey) with false
    by (rewrite Hkey; reflexivity).
  reflexivity.
Qed.

(** What was cleared is fetched again: after clear-all, and after clear-key
    for [k], a read of [k] runs the producer regardless of the TTL. *)
Theorem getFromCache_after_clear (k : string) (fn : Eff Net Val) (d : option Z)
    (w : World) :
  (let w' := snd (admin_cache_clear (VStr expectedKey) w) in
   getFromCache k fn d w' = after_miss k fn w')
  /\ (let w' := snd (admin_cache_clear_key (VStr expectedKey) k w) in
      getFromCache k fn d w' = after_miss k fn w').
Proof.
  split; intros w'; subst w'; apply getFromCache_miss.
  - unfold admin_cache_clear. rewrite differs_from_string_refl. simpl.
    rewrite lookup_empty. reflexivity.
  - rewrite admin_cache_clear_key_deletes. simpl.
    rewrite lookup_delete_eq. reflexivity.
Qed.

(** ** Validation of usernames *)

Lemma username_char_upper (c : ascii) :
  is_upper c = true ->
  username_char c = true /\ username_char (lower_char c) = true.
Proof.
  destruct c as [[|] [|] [|] [|] [|] [|] [|] [|]]; vm_compute;
    intros H; try discriminate H; split; reflexivity.
Qed.

Lemma same_letter_username_char (a b : ascii) :
  same_letter a b = true -> username_char a = username_char b.
Proof.
  unfold same_letter.
  rewrite !orb_true_iff, !andb_true_iff, !Ascii.eqb_eq.
  intros [[->|[Hu ->]]|[Hu ->]]; [reflexivity| |];
    destruct (username_char_upper _ Hu) as [H1 H2]; congruence.
Qed.

Lemma differ_only_in_case_shape (s1 s2 : string) :
  differ_only_in_case s1 s2 = true ->
  String.length s1 = String.length s2
  /\ all_chars username_char s1 = all_chars username_char s2
  /\ String.eqb s1 "" = String.eqb s2 "".
Proof.
  revert s2. induction s1 as [|a r1 IH]; intros [|b r2]; simpl;
    try discriminate; [auto|].
  intros H. apply andb_true_iff in H as [Hab Hr].
  destruct (IH _ Hr) as (Hl & Hc & _).
  rewrite (same_letter_username_char _ _ Hab), Hl, Hc. auto.
Qed.

(** Validation does not look at letter case: two usernames that differ only
    in case are both accepted or both refused. *)
Theorem validateUsername_ignores_case (s1 s2 : string) :
  differ_only_in_case s1 s2 = true ->
  validateUsername (VStr s1) = validateUsername (VStr s2).
Proof.
  intros H. destruct (differ_only_in_case_shape _ _ H) as (Hl & Hc & He).
  unfold validateUsername, username_pattern. simpl. rewrite Hl, Hc, He.
  reflexivity.
Qed.

(** A username that fails validation is answered with status 400 by the
    player search and by the ban check, before the cache is read or any
    upstream call is made: the world is the one before the request. *)
Theorem invalid_username_rejected (username : Val) (w : World) :
  validateUsername username = false ->
  player_search username w
  = (Fulfilled (res_status_json 400 (json_failure
       (if truthy username
        then "Invalid username format. Username must be 3-20 characters and contain only alphanumeric characters, hyphens, and underscores."
        else "Username parameter is required"))), w)
  /\ ban_check username w
     = (Fulfilled (res_status_json 400 (json_failure
          (if truthy username then "Invalid username format"
           else "Username parameter is required"))), w).
Proof.
  intros Hv. unfold player_search, ban_check. rewrite Hv.
  destruct (truthy username); split; reflexivity.
Qed.

(** ** Hard path: what is fetched, what is stored, what is served *)

Lemma hard_handler_run (r : HardLookup) (w : World) :
  accepted r = true ->
  hard_handler r w
  = match getFromCache (hard_cacheKey r) (hard_producer r) None w with
    | (Fulfilled v, w') => (Fulfilled (hard_answer r v), w')
    | (Rejected e, w') => (Fulfilled (hard_failure r e), w')
    end.
Proof.
  intros Hacc. destruct r as [username|playerId|itemId]; simpl in *.
  - unfold player_search. rewrite (validateUsername_truthy _ Hacc), Hacc.
    simpl negb. cbv iota. unfold try_catch, bind at 1.
    destruct (getFromCache _ _ None w) as [[v|e] w']; [|reflexivity].
    unfold hard_answer. destruct (truthy v); reflexivity.
  - unfold player_profile, try_catch, bind at 1.
    destruct (getFromCache _ _ None w) as [[v|e] w']; [|reflexivity].
    unfold hard_answer. destruct (truthy v); reflexivity.
  - unfold market_item, try_catch, bind at 1.
    destruct (getFromCache _ _ None w) as [[v|e] w']; [|reflexivity].
    unfold hard_answer. destruct (truthy v); reflexivity.
Qed.

Lemma unwrap_graphql_payload (response_data : Val) (fallback field : string)
    (v : Val) (n : Net) :
  graphql_payload response_data field = Some v ->
  unwrap_graphql response_data fallback field n = (Fulfilled v, n).
Proof.
  unfold graphql_payload, error_envelope, unwrap_graphql. unfold_eff.
  destruct (member response_data "errors") as [errors|e] eqn:Herr.
  - destruct (truthy errors); [discriminate|].
    destruct (member response_data "data") as [pd|]; [|discriminate].
    destruct (member pd field) as [v'|]; [|discriminate].
    intros [= ->]. reflexivity.
  - destruct response_data; simpl in *; discriminate.
Qed.

Lemma hard_producer_payload (r : HardLookup) (n : Net) (elapsed : Z) (d v : Val) :
  upstream (hard_call r) n = (elapsed, Fulfilled d) ->
  graphql_payload d (hard_field r) = Some v ->
  hard_producer r n = (Fulfilled v, after_call (hard_call r) n).
Proof.
  intros Hup Hpay.
  destruct r; simpl in *;
    unfold player_search_producer, player_profile_producer, market_item_producer,
      bind, axios, after_call; rewrite Hup; simpl;
    apply (unwrap_graphql_payload _ _ _ _ _ Hpay).
Qed.

Lemma hard_handler_hit (r : HardLookup) (w : World) (c : Entry) :
  accepted r = true ->
  cache w !! hard_cacheKey r = Some c ->
  now (net w) - timestamp c < CACHE_DURATION ->
  hard_handler r w = (Fulfilled (hard_answer r (data c)), w).
Proof.
  intros Hacc Hc Hlt. rewrite (hard_handler_run r w Hacc).
  rewrite (getFromCache_hit _ _ None w c Hc Hlt). reflexivity.
Qed.

Lemma hard_handler_fetch (r : HardLookup) (w : World) (elapsed : Z) (d v : Val) :
  accepted r = true ->
  fresh (cache w !! hard_cacheKey r) (now (net w)) CACHE_DURATION = false ->
  upstream (hard_call r) (net w) = (elapsed, Fulfilled d) ->
  graphql_payload d (hard_field r) = Some v ->
  hard_handler r w
  = (Fulfilled (hard_answer r v),
     {| cache := <[hard_cacheKey r := {| data := v; timestamp := now (net w) + elapsed |}]>
                   (cache w);
        net := after_call (hard_call r) (net w) |}).
Proof.
  intros Hacc Hmiss Hup Hpay. rewrite (hard_handler_run r w Hacc).
  rewrite (getFromCache_miss _ _ None w Hmiss). unfold after_miss.
  rewrite (hard_producer_payload r _ _ _ _ Hup Hpay).
  unfold after_call. rewrite Hup. reflexivity.
Qed.

(** A hard-path lookup that has to go upstream and gets a well-formed
    response answers 200 with the payload when it is truthy and 404 when it
    is not ([null] for an unknown player or item); either way the payload is
    stored under the key, stamped with the time the response arrived, after
    exactly one upstream call. *)
Theorem hard_lookup_fetches_and_stores (r : HardLookup) (w : World) (elapsed : Z)
    (d v : Val) :
  accepted r = true ->
  fresh (cache w !! hard_cacheKey r) (now (net w)) CACHE_DURATION = false ->
  upstream (hard_call r) (net w) = (elapsed, Fulfilled d) ->
  graphql_payload d (hard_field r) = Some v ->
  exists w1,
    hard_handler r w
    = (Fulfilled (if truthy v then res_json (json_success v) else hard_not_found r), w1)
    /\ cache w1 !! hard_cacheKey r
       = Some {| data := v; timestamp := now (net w) + elapsed |}
    /\ sent (net w1) = (sent (net w) ++ [hard_call r])%list.
Proof.
  intros Hacc Hmiss Hup Hpay. eexists. split.
  - rewrite (hard_handler_fetch r w elapsed d v Hacc Hmiss Hup Hpay).
    unfold hard_answer. destruct (truthy v); reflexivity.
  - split; [apply lookup_insert_eq | reflexivity].
Qed.

(** What a hard-path lookup fetched is served again from the cache for five
    minutes, a not-found answer included: a repeat of the request within
    that time gets the same answer and no upstream call is made. *)
Theorem hard_lookup_repeats_from_cache (r : HardLookup) (w : World) (elapsed t : Z)
    (d v : Val) :
  accepted r = true ->
  fresh (cache w !! hard_cacheKey r) (now (net w)) CACHE_DURATION = false ->
  upstream (hard_call r) (net w) = (elapsed, Fulfilled d) ->
  graphql_payload d (hard_field r) = Some v ->
  now (net w) + elapsed <= t ->
  t - (now (net w) + elapsed) < 5 * 60 * 1000 ->
  let w1 := snd (hard_handler r w) in
  hard_handler r (at_time t w1) = (fst (hard_handler r w), at_time t w1).
Proof.
  intros Hacc Hmiss Hup Hpay Hle Hlt w1. subst w1.
  rewrite (hard_handler_fetch r w elapsed d v Hacc Hmiss Hup Hpay). simpl fst. simpl snd.
  rewrite (hard_handler_hit r _ {| data := v; timestamp := now (net w) + elapsed |} Hacc);
    [reflexivity | simpl; apply lookup_insert_eq | simpl; exact Hlt].
Qed.

(** Usernames that differ only in letter case share one cache entry: after a
    search for [u1] has fetched a payload, a search for [u2] within five
    minutes is answered with that payload and no upstream call. *)
Theorem player_search_case_variants_share (u1 u2 : string) (w : World)
    (elapsed t : Z) (d v : Val) :
  validateUsername (VStr u1) = true ->
  differ_only_in_case u1 u2 = true ->
  fresh (cache w !! player_cacheKey u1) (now (net w)) CACHE_DURATION = false ->
  upstream (player_search_call (VStr u1)) (net w) = (elapsed, Fulfilled d) ->
  graphql_payload d "playerByUsername" = Some v ->
  now (net w) + elapsed <= t ->
  t - (now (net w) + elapsed) < 5 * 60 * 1000 ->
  let w1 := snd (player_search (VStr u1) w) in
  player_search (VStr u2) (at_time t w1)
  = (fst (player_search (VStr u1) w), at_time t w1).
Proof.
  intros Hv1 Hcase Hmiss Hup Hpay Hle Hlt w1. subst w1.
  assert (Hv2 : validateUsername (VStr u2) = true).
  { rewrite <- Hv1. unfold validateUsername, username_pattern. simpl.
    destruct (differ_only_in_case_shape _ _ Hcase) as (Hl & Hc & He).
    rewrite Hl, Hc, He. reflexivity. }
  assert (Hkey : player_cacheKey u2 = player_cacheKey u1).
  { unfold player_cacheKey. f_equal. symmetry.
    now apply differ_only_in_case_spec. }
  change (player_search (VStr u1)) with (hard_handler (PlayerSearch u1)).
  change (player_search (VStr u2)) with (hard_handler (PlayerSearch u2)).
  rewrite (hard_handler_fetch (PlayerSearch u1) w elapsed d v Hv1 Hmiss Hup Hpay).
  simpl fst. simpl snd.
  rewrite (hard_handler_hit (PlayerSearch u2) _
             {| data := v; timestamp := now (net w) + elapsed |} Hv2);
    [reflexivity | simpl; rewrite Hkey; apply lookup_insert_eq | simpl; exact Hlt].
Qed.

(** The player search reads whatever sits under its key.  When a username
    has the key of a profile lookup (as [profile_abc] has for the id [abc]),
    a search for it within five minutes of that lookup is answered with the
    profile that was fetched, and no upstream call is made. *)
Theorem player_search_reads_profile_entry (u playerId : string) (w : World)
    (elapsed t : Z) (d v : Val) :
  validateUsername (VStr u) = true ->
  player_cacheKey u = player_profile_cacheKey playerId ->
  fresh (cache w !! player_profile_cacheKey playerId) (now (net w)) CACHE_DURATION = false ->
  upstream (player_profile_call playerId) (net w) = (elapsed, Fulfilled d) ->
  graphql_payload d "player" = Some v ->
  truthy v = true ->
  now (net w) + elapsed <= t ->
  t - (now (net w) + elapsed) < 5 * 60 * 1000 ->
  let w1 := snd (player_profile playerId w) in
  player_search (VStr u) (at_time t w1)
  = (Fulfilled (res_json (json_success v)), at_time t w1).
Proof.
  intros Hv Hkey Hmiss Hup Hpay Htr Hle Hlt w1. subst w1.
  change (player_profile playerId) with (hard_handler (PlayerProfile playerId)).
  change (player_search (VStr u)) with (hard_handler (PlayerSearch u)).
  rewrite (hard_handler_fetch (PlayerProfile playerId) w elapsed d v eq_refl Hmiss Hup Hpay).
  simpl snd.
  rewrite (hard_handler_hit (PlayerSearch u) _
             {| data := v; timestamp := now (net w) + elapsed |} Hv);
    [ | simpl; rewrite Hkey; apply lookup_insert_eq | simpl; exact Hlt].
  unfold hard_answer. simpl. rewrite Htr. reflexivity.
Qed.

(** A hard-path handler always answers: its promise is never rejected, and
    the answer is 200 with a truthy payload, or 400, 404 or 500 with
    [success: false] and a message. *)
Theorem hard_handler_always_answers (r : HardLookup) (w : World) :
  exists resp w',
    hard_handler r w = (Fulfilled resp, w') /\ hard_response_shape resp.
Proof.
  assert (Hrun : accepted r = true ->
                 exists resp w', hard_handler r w = (Fulfilled resp, w')
                                 /\ hard_response_shape resp).
  { intros Hacc. rewrite (hard_handler_run r w Hacc).
    destruct (getFromCache _ _ None w) as [[v|e] w'].
    - exists (hard_answer r v), w'. split; [reflexivity|].
      unfold hard_answer. destruct (truthy v) eqn:Htr; simpl.
      + left. eauto.
      + right. exists 404.
        destruct r; eexists; (split; [auto|split; [|reflexivity]]); discriminate.
    - exists (hard_failure r e), w'. split; [reflexivity|].
      right. exists 500. eexists. split; [auto|]. split; [|reflexivity].
      apply or_default_nonempty. destruct r; discriminate. }
  destruct (accepted r) eqn:Hacc; [now apply Hrun|].
  destruct r as [username| |]; try discriminate. simpl in Hacc.
  simpl. unfold player_search. rewrite Hacc.
  destruct (truthy (VStr username)); simpl;
    do 2 eexists; (split; [reflexivity|]); right; exists 400; eexists;
    (split; [auto|split; [|reflexivity]]); discriminate.
Qed.

(** ** Soft path: ban check, ban statistics, price history *)

Lemma getFromCache_never_rejects (k : string) (fn : Eff Net Val) (d : option Z)
    (w : World) :
  never_rejects fn -> exists v w', getFromCache k fn d w = (Fulfilled v, w').
Proof.
  intros Hfn.
  destruct (fresh (cache w !! k) (now (net w)) (default CACHE_DURATION d)) eqn:Hf.
  - apply fresh_spec in Hf as (c & Hc & Hlt).
    rewrite (getFromCache_hit k fn d w c Hc Hlt). eauto.
  - rewrite (getFromCache_miss k fn d w Hf). unfold after_miss.
    destruct (Hfn (net w)) as (v & n' & ->). eauto.
Qed.

Lemma ban_check_producer_never_rejects (username : Val) :
  never_rejects (ban_check_producer username).
Proof.
  intros n. unfold ban_check_producer, try_catch.
  match goal with |- context [match ?b n with _ => _ end] => destruct (b n) as [[v|e] n'] end;
    unfold ret; eauto.
Qed.



(** The ban check never reports a failure for a valid username: whatever
    the cache holds and whatever the ban service does (answers, answers
    with something unreadable, fails), the response is 200 with
    [success: true]. *)
Theorem ban_check_always_succeeds (name : string) (w : World) :
  validateUsername (VStr name) = true ->
  exists resp w', ban_check (VStr name) w = (Fulfilled resp, w') /\ is_success resp.
Proof.
  intros Hval. unfold ban_check.
  rewrite (validateUsername_truthy _ Hval), Hval. simpl negb. cbv iota.
  destruct (getFromCache_never_rejects (ban_check_cacheKey name)
              (ban_check_producer (VStr name)) (Some BAN_CHECK_DURATION) w
              (ban_check_producer_never_rejects _)) as (v & w' & Hget).
  unfold try_catch, bind at 1. rewrite Hget.
  exists (res_json (json_success v)), w'. split; [reflexivity | exists v; reflexivity].
Qed.


(** An answer of the ban service that is a JSON object is passed on with
    [isBanned] true exactly when its [banned] member is the boolean [true]
    (a string or a number does not count), with [source] defaulting to
    [unknown], and is stored under the ban-check key. *)
Theorem ban_check_authoritative (name : string) (w : World) (elapsed : Z)
    (fields : list (string * Val)) :
  validateUsername (VStr name) = true ->
  fresh (cache w !! ban_check_cacheKey name) (now (net w)) BAN_CHECK_DURATION = false ->
  upstream (ban_check_call (VStr name)) (net w) = (elapsed, Fulfilled (VObj fields)) ->
  exists banStatus w1,
    ban_check (VStr name) w = (Fulfilled (res_json (json_success banStatus)), w1)
    /\ member banStatus "username" = Fulfilled (VStr name)
    /\ (member banStatus "isBanned" = Fulfilled (VBool true)
        <-> assoc "banned" fields = VBool true)
    /\ member banStatus "source"
       = Fulfilled (or_else (assoc "source" fields) (VStr "unknown"))
    /\ member banStatus "note" = Fulfilled VUndefined
    /\ cache w1 !! ban_check_cacheKey name
       = Some {| data := banStatus; timestamp := now (net w) + elapsed |}.
Proof.
  intros Hval Hmiss Hup. unfold ban_check.
  rewrite (validateUsername_truthy _ Hval), Hval. simpl negb. cbv iota.
  unfold try_catch at 1, bind at 1.
  rewrite (getFromCache_miss _ _ (Some BAN_CHECK_DURATION) w Hmiss).
  unfold after_miss, ban_check_producer, try_catch, bind, axios, prop, lift, ret.
  rewrite Hup. simpl.
  do 2 eexists. split; [reflexivity|]. split; [reflexivity|]. split.
  - simpl. destruct (assoc "banned" fields) as [| |[|]| | | |]; simpl;
      split; intros H; try reflexivity; discriminate.
  - split; [reflexivity|]. split; [reflexivity|]. simpl. apply lookup_insert_eq.
Qed.

Lemma soft_hit (key : string) (fn : Eff Net Val) (duration : Z) (w : World)
    (c : Entry) (generic : string) :
  cache w !! key = Some c ->
  now (net w) - timestamp c < duration ->
  try_catch
    (bind (getFromCache key fn (Some duration))
          (fun v => ret (res_json (json_success v))))
    (fun error => ret (res_status_json 500
                         (json_failure (or_default (message error) generic)))) w
  = (Fulfilled (res_json (json_success (data c))), w).
Proof.
  intros Hc Hlt. unfold try_catch, bind at 1.
  rewrite (getFromCache_hit key fn (Some duration) w c Hc Hlt). reflexivity.
Qed.


(** When the ban service fails, the statistics endpoint answers with zeros
    and a note, stamped with the time of the failure, and stores that: for
    one hour every request gets the same answer, with the same
    [lastUpdate], and the ban service is not asked again. *)
Theorem ban_stats_degraded_for_an_hour (w : World) (elapsed t : Z) (e : Error) :
  fresh (cache w !! "ban_stats_global") (now (net w)) ONE_HOUR = false ->
  upstream ban_stats_call (net w) = (elapsed, Rejected e) ->
  now (net w) + elapsed <= t ->
  t - (now (net w) + elapsed) < 60 * 60 * 1000 ->
  let answer :=
    res_json (json_success
                (ban_stats_unavailable (toISOString (now (net w) + elapsed)))) in
  let w1 := snd (ban_stats w) in
  fst (ban_stats w) = Fulfilled answer
  /\ sent (net w1) = (sent (net w) ++ [ban_stats_call])%list
  /\ ban_stats (at_time t w1) = (Fulfilled answer, at_time t w1).
Proof.
  intros Hmiss Hup Hle Hlt answer w1.
  assert (Hfirst : ban_stats w
                   = (Fulfilled answer,
                      {| cache := <["ban_stats_global" :=
                                     {| data := ban_stats_unavailable
                                                  (toISOString (now (net w) + elapsed));
                                        timestamp := now (net w) + elapsed |}]> (cache w);
                         net := after_call ban_stats_call (net w) |})).
  { unfold ban_stats, try_catch at 1, bind at 1.
    rewrite (getFromCache_miss _ _ (Some ONE_HOUR) w Hmiss).
    unfold after_miss, ban_stats_producer, try_catch, bind, axios, after_call,
      Date_toISOString, ret.
    rewrite Hup. reflexivity. }
  subst w1. rewrite Hfirst. simpl fst. simpl snd.
  split; [reflexivity|]. split; [reflexivity|].
  unfold ban_stats.
  apply (soft_hit _ _ ONE_HOUR _
           {| data := ban_stats_unavailable (toISOString (now (net w) + elapsed));
              timestamp := now (net w) + elapsed |});
    [simpl; apply lookup_insert_eq | simpl; exact Hlt].
Qed.

End Server.

(** * The properties at concrete inputs *)


(** A player search and a profile lookup with one key: the valid username
    [profile_abc] and the player id [abc]. *)
Lemma player_key_meets_profile_key :
  validateUsername (VStr "profile_abc") = true
  /\ player_cacheKey "profile_abc" = player_profile_cacheKey "abc".
Proof. split; reflexivity. Qed.


Lemma C2_put_then_get_witness :
  let w1 := snd (getFromCache "market_item_42" (returns (VStr "AK-74N") 120) None
                   (started_at 1000)) in
  cache w1 !! "market_item_42" = Some {| data := VStr "AK-74N"; timestamp := 1120 |}
  /\ getFromCache "market_item_42" (rejects "unused" 0) (Some 300000)
       (at_time 301119 w1)
     = (Fulfilled (VStr "AK-74N"), at_time 301119 w1)
  /\ sent (net (at_time 301119 w1)) = [].
Proof.
  apply (C2_put_then_get "market_item_42" (VStr "AK-74N") 300000
           (returns (VStr "AK-74N") 120) (rejects "unused" 0) None
           (started_at 1000) {| now := 1120; sent := [] |} 301119);
    [reflexivity | reflexivity | lia | simpl; lia | simpl; lia].
Defined.

Lemma C3_stale_entry_witness :
  let w := holding "ban_stats_global" (VNum 7) 3600000 in
  getFromCache "ban_stats_global" (rejects "down" 5) (Some 3600000) w
  = (Rejected (new_Error "down"),
     {| cache := cache w; net := {| now := 3600005; sent := [] |} |})
  /\ cache (snd (getFromCache "ban_stats_global" (rejects "down" 5)
                   (Some 3600000) w)) !! "ban_stats_global"
     = Some {| data := VNum 7; timestamp := 0 |}.
Proof.
  intros w.
  destruct (C3_stale_entry "ban_stats_global" {| data := VNum 7; timestamp := 0 |}
              3600000 (rejects "down" 5) w) as (Hmiss & _ & _ & _ & Hrej);
    [reflexivity | simpl; lia |].
  split; [exact Hmiss | exact (proj2 (Hrej _ _ eq_refl))].
Defined.

Lemma C5_admin_gate_witness :
  let w := holding "player_nikita" VNull 0 in
  admin_cache_clear no_env (VStr "guess") w = (Fulfilled unauthorized, w)
  /\ admin_cache_clear_key no_env VUndefined "player_nikita" w
     = (Fulfilled unauthorized, w).
Proof.
  intros w. split.
  - apply (C5_admin_gate no_env w (VStr "guess") "player_nikita"). discriminate.
  - apply (C5_admin_gate no_env w VUndefined "player_nikita"). discriminate.
Defined.

Lemma C6_hard_path_reports_witness :
  exists resp,
    hard_handler no_env graphql_errors (PlayerSearch "Nikita") (started_at 0)
    = (Fulfilled resp,
       {| cache := ∅;
          net := after_call graphql_errors
                   (hard_call no_env (PlayerSearch "Nikita")) (net (started_at 0)) |})
    /\ reported_failure resp
    /\ member (body resp) "success" = Fulfilled (VBool false).
Proof.
  apply (C6_hard_path_reports no_env graphql_errors (PlayerSearch "Nikita")
           (started_at 0)); reflexivity.
Defined.

Lemma C7_ban_check_degrades_witness :
  exists resp banStatus,
    fst (ban_check no_env service_down (VStr "Nikita") (started_at 0)) = Fulfilled resp
    /\ status resp = 200
    /\ member (body resp) "success" = Fulfilled (VBool true)
    /\ member (body resp) "data" = Fulfilled banStatus
    /\ member banStatus "isBanned" = Fulfilled (VBool false)
    /\ member banStatus "source" = Fulfilled (VStr "offline")
    /\ member banStatus "note"
       = Fulfilled (VStr "Ban check service unavailable, player status unknown").
Proof.
  apply (C7_ban_check_degrades no_env service_down "Nikita" (started_at 0) 8000
           (new_Error "timeout exceeded")); reflexivity.
Defined.

Lemma C8_rate_limiter_witness :
  let reqs := [("203.0.113.7", 10); ("198.51.100.2", 20); ("203.0.113.7", 900000)] in
  RateLimit.decisions RateLimit.windowMs RateLimit.max "203.0.113.7"
    (("203.0.113.7", 0) :: reqs) ∅
  = [true; true; true]
  /\ RateLimit.admission RateLimit.windowMs RateLimit.max "203.0.113.7" 900001
       (RateLimit.serve RateLimit.windowMs RateLimit.max (("203.0.113.7", 0) :: reqs) ∅)
     = (true,
        <["203.0.113.7" := {| RateLimit.count := 1; RateLimit.windowStart := 900001 |}]>
          (RateLimit.serve RateLimit.windowMs RateLimit.max
             (("203.0.113.7", 0) :: reqs) ∅)).
Proof.
  intros reqs.
  destruct (C8_rate_limiter RateLimit.windowMs RateLimit.max "203.0.113.7" 0 900001
              reqs ∅) as (Hds & _ & _ & Hresume).
  - reflexivity.
  - repeat constructor; vm_compute; discriminate.
  - vm_compute. reflexivity.
  - split; [exact Hds | exact Hresume].
Defined.

Lemma C9_rejection_not_cached_witness :
  getFromCache "player_nikita" (rejects "socket hang up" 40) None (started_at 0)
  = (Rejected (new_Error "socket hang up"),
     {| cache := ∅; net := {| now := 40; sent := [] |} |}).
Proof.
  apply (C9_rejection_not_cached "player_nikita" None (rejects "socket hang up" 40)
           (started_at 0)); reflexivity.
Defined.

Lemma C10_degraded_result_cached_witness :
  let w1 := snd (ban_check no_env service_down (VStr "Nikita") (started_at 0)) in
  cache w1 !! ban_check_cacheKey "Nikita"
  = Some {| data := ban_check_offline (VStr "Nikita"); timestamp := 8000 |}
  /\ fst (ban_checks no_env service_down (VStr "Nikita") [8000; 60000; 907999] w1)
     = List.map (fun _ => Fulfilled (offline_response (VStr "Nikita")))
         [8000; 60000; 907999]
  /\ cache (snd (ban_checks no_env service_down (VStr "Nikita")
                   [8000; 60000; 907999] w1)) = cache w1
  /\ sent (net (snd (ban_checks no_env service_down (VStr "Nikita")
                       [8000; 60000; 907999] w1)))
     = [ban_check_call no_env (VStr "Nikita")].
Proof.
  apply (C10_degraded_result_cached no_env service_down "Nikita" (started_at 0) 8000
           (new_Error "timeout exceeded") [8000; 60000; 907999]);
    [reflexivity | reflexivity | reflexivity |].
  repeat constructor; simpl; lia.
Defined.

(** * The handlers on sample requests *)

Example validateUsername_samples :
  validateUsername (VStr "Nikita_01") = true
  /\ validateUsername (VStr "ab") = false
  /\ validateUsername (VStr "twenty-one-characters") = false
  /\ validateUsername (VStr "bad name") = false
  /\ validateUsername (VArr [VStr "Nikita"]) = false
  /\ validateUsername VUndefined = false.
Proof. repeat split. Qed.

Example player_search_error_envelope :
  player_search no_env graphql_errors (VStr "Nikita") (started_at 0)
  = (Fulfilled (res_status_json 500 (json_failure "Rate limit exceeded")),
     {| cache := ∅;
        net := {| now := 120;
                  sent := [player_search_call no_env (VStr "Nikita")] |} |}).
Proof. reflexivity. Qed.

Example player_search_empty_errors :
  fst (player_search no_env
         (fun _ _ => (50, Fulfilled (VObj [("errors", VArr [])])))
         (VStr "Nikita") (started_at 0))
  = Fulfilled (res_status_json 500
      (json_failure "Cannot read properties of undefined (reading 'message')")).
Proof. reflexivity. Qed.

Example player_search_not_found :
  fst (player_search no_env
         (fun _ _ => (50, Fulfilled (VObj [("data",
                        VObj [("playerByUsername", VNull)])])))
         (VStr "Nikita") (started_at 0))
  = Fulfilled (res_status_json 404 (json_failure "Player not found")).
Proof. reflexivity. Qed.

Example ban_check_rejects_bad_username :
  ban_check no_env service_down (VStr "x") (started_at 0)
  = (Fulfilled (res_status_json 400 (json_failure "Invalid username format")),
     started_at 0).
Proof. reflexivity. Qed.

Example ban_check_banned_player :
  fst (ban_check no_env
         (fun _ _ => (30, Fulfilled (VObj [("banned", VBool true);
                                           ("banType", VStr "hwid")])))
         (VStr "Nikita") (started_at 0))
  = Fulfilled (res_json (json_success
      (VObj [("username", VStr "Nikita"); ("isBanned", VBool true);
             ("banReason", VNull); ("banDate", VNull);
             ("banType", VStr "hwid"); ("source", VStr "unknown")]))).
Proof. reflexivity. Qed.

Example admin_cache_clear_one_entry :
  admin_cache_clear no_env (VStr "admin-secret-key") (holding "player_nikita" VNull 5)
  = (Fulfilled (res_json (VObj [("success", VBool true);
                                ("message", VStr "Cache cleared. 1 entries removed.")])),
     {| cache := ∅; net := {| now := 5; sent := [] |} |}).
Proof. reflexivity. Qed.

Example admin_cache_clear_key_samples :
  fst (admin_cache_clear_key no_env (VStr "admin-secret-key") "player_nikita"
         (holding "player_nikita" VNull 5))
  = Fulfilled (res_json (VObj [("success", VBool true);
                               ("message", VStr "Cache key 'player_nikita' cleared.");
                               ("existed", VBool true)]))
  /\ cache (snd (admin_cache_clear_key no_env (VStr "admin-secret-key") "player_nikita"
                   (holding "player_nikita" VNull 5))) !! "player_nikita" = None
  /\ fst (admin_cache_clear_key no_env (VStr "admin-secret-key") "other"
            (holding "player_nikita" VNull 5))
     = Fulfilled (res_json (VObj [("success", VBool true);
                                  ("message", VStr "Cache key 'other' cleared.");
                                  ("existed", VBool false)])).
Proof. repeat split. Qed.

Example limiter_hundred_and_one :
  RateLimit.decisions RateLimit.windowMs RateLimit.max "203.0.113.7"
    (List.map (fun i => ("203.0.113.7", Z.of_nat i)) (seq 0 101)) ∅
  = (repeat true 100 ++ [false])%list.
Proof. vm_compute. reflexivity. Qed.

(** * The further properties at concrete inputs *)

Lemma getFromCache_other_keys_witness :
  cache (snd (getFromCache "market_item_42" (returns (VStr "AK-74N") 120) None
                (holding "player_nikita" VNull 1000))) !! "player_nikita"
  = cache (holding "player_nikita" VNull 1000) !! "player_nikita".
Proof.
  apply (getFromCache_other_keys "market_item_42" "player_nikita"
           (returns (VStr "AK-74N") 120) None (holding "player_nikita" VNull 1000)).
  discriminate.
Defined.

Lemma getFromCache_twice_witness :
  getFromCache "market_item_42" (rejects "unused" 0) None
    {| cache := {[ "market_item_42" := {| data := VStr "AK-74N"; timestamp := 1120 |} ]};
       net := {| now := 1120; sent := [] |} |}
  = (Fulfilled (VStr "AK-74N"),
     {| cache := {[ "market_item_42" := {| data := VStr "AK-74N"; timestamp := 1120 |} ]};
        net := {| now := 1120; sent := [] |} |}).
Proof.
  apply (getFromCache_twice "market_item_42" (returns (VStr "AK-74N") 120)
           (rejects "unused" 0) None (started_at 1000));
    [unfold CACHE_DURATION; simpl; lia | reflexivity].
Defined.

Lemma getFromCache_keeps_timestamps_in_the_past_witness :
  no_entry_from_the_future
    (snd (getFromCache "market_item_42" (returns (VStr "AK-74N") 120) None
            (started_at 1000))).
Proof.
  apply (getFromCache_keeps_timestamps_in_the_past "market_item_42"
           (returns (VStr "AK-74N") 120) None (started_at 1000)).
  - intros n r n' [= <- <-]. simpl. lia.
  - apply map_Forall_empty.
Defined.

Lemma getFromCache_no_ttl_no_hit_witness :
  getFromCache "player_nikita" (returns (VNum 2) 10) (Some 0)
    (holding "player_nikita" (VNum 1) 0)
  = after_miss "player_nikita" (returns (VNum 2) 10)
      (holding "player_nikita" (VNum 1) 0).
Proof.
  apply (getFromCache_no_ttl_no_hit "player_nikita" (returns (VNum 2) 10) 0
           (holding "player_nikita" (VNum 1) 0)); [lia|].
  apply map_Forall_singleton. simpl. lia.
Defined.

Lemma admin_cache_clear_key_present_witness :
  exists w',
    admin_cache_clear_key no_env (VStr "admin-secret-key") "player_nikita"
      (holding "player_nikita" VNull 5)
    = (Fulfilled
         (res_json (VObj [("success", VBool true);
                          ("message", VStr "Cache key 'player_nikita' cleared.");
                          ("existed", VBool true)])),
       w')
    /\ cache w' !! "player_nikita" = None
    /\ S (size (cache w')) = size (cache (holding "player_nikita" VNull 5))
    /\ (forall k', k' <> "player_nikita" ->
          cache w' !! k' = cache (holding "player_nikita" VNull 5) !! k')
    /\ net w' = net (holding "player_nikita" VNull 5).
Proof.
  apply (admin_cache_clear_key_present no_env "player_nikita"
           {| data := VNull; timestamp := 0 |} (holding "player_nikita" VNull 5)).
  reflexivity.
Defined.

Lemma admin_cache_clear_key_absent_witness :
  admin_cache_clear_key no_env (VStr "admin-secret-key") "player_killa"
    (holding "player_nikita" VNull 5)
  = (Fulfilled
       (res_json (VObj [("success", VBool true);
                        ("message", VStr "Cache key 'player_killa' cleared.");
                        ("existed", VBool false)])),
     holding "player_nikita" VNull 5).
Proof.
  apply (admin_cache_clear_key_absent no_env "player_killa"
           (holding "player_nikita" VNull 5)).
  reflexivity.
Defined.

Lemma admin_refuses_without_key_witness :
  admin_cache_clear (fun _ => Some "s3cret") VUndefined (started_at 0)
  = (Fulfilled unauthorized, started_at 0)
  /\ admin_cache_clear_key (fun _ => Some "s3cret") VUndefined "player_nikita"
       (started_at 0)
     = (Fulfilled unauthorized, started_at 0).
Proof.
  apply (admin_refuses_without_key (fun _ => Some "s3cret") VUndefined
           "player_nikita" (started_at 0)).
  intros s Hs. discriminate Hs.
Defined.

Lemma admin_default_secret_witness :
  expectedKey no_env = "admin-secret-key"
  /\ cache (snd (admin_cache_clear no_env (VStr "admin-secret-key")
                   (holding "player_nikita" VNull 5))) = ∅.
Proof.
  apply (admin_default_secret no_env (holding "player_nikita" VNull 5)).
  left. reflexivity.
Defined.

Lemma validateUsername_ignores_case_witness :
  validateUsername (VStr "Nikita_01") = validateUsername (VStr "nIKITA_01").
Proof.
  apply (validateUsername_ignores_case "Nikita_01" "nIKITA_01"). reflexivity.
Defined.

Lemma invalid_username_rejected_witness :
  player_search no_env service_down (VStr "a b") (started_at 0)
  = (Fulfilled (res_status_json 400 (json_failure
       "Invalid username format. Username must be 3-20 characters and contain only alphanumeric characters, hyphens, and underscores.")),
     started_at 0)
  /\ ban_check no_env service_down (VStr "a b") (started_at 0)
     = (Fulfilled (res_status_json 400 (json_failure "Invalid username format")),
        started_at 0).
Proof.
  apply (invalid_username_rejected no_env service_down (VStr "a b") (started_at 0)).
  reflexivity.
Defined.

Lemma hard_lookup_fetches_and_stores_witness :
  exists w1,
    hard_handler no_env (graphql_answers "item" VNull) (ItemLookup "42") (started_at 0)
    = (Fulfilled (hard_not_found (ItemLookup "42")), w1)
    /\ cache w1 !! "market_item_42" = Some {| data := VNull; timestamp := 120 |}
    /\ sent (net w1) = [hard_call no_env (ItemLookup "42")].
Proof.
  apply (hard_lookup_fetches_and_stores no_env (graphql_answers "item" VNull)
           (ItemLookup "42") (started_at 0) 120
           (VObj [("data", VObj [("item", VNull)])]) VNull); reflexivity.
Defined.

Lemma hard_lookup_repeats_from_cache_witness :
  let w1 := snd (hard_handler no_env (graphql_answers "item" VNull) (ItemLookup "42")
                   (started_at 0)) in
  hard_handler no_env (graphql_answers "item" VNull) (ItemLookup "42")
    (at_time 300119 w1)
  = (fst (hard_handler no_env (graphql_answers "item" VNull) (ItemLookup "42")
            (started_at 0)),
     at_time 300119 w1).
Proof.
  apply (hard_lookup_repeats_from_cache no_env (graphql_answers "item" VNull)
           (ItemLookup "42") (started_at 0) 120 300119
           (VObj [("data", VObj [("item", VNull)])]) VNull);
    [reflexivity | reflexivity | reflexivity | reflexivity | simpl; lia | simpl; lia].
Defined.

Lemma player_search_case_variants_share_witness :
  let up := graphql_answers "playerByUsername" (VObj [("username", VStr "Nikita")]) in
  let w1 := snd (player_search no_env up (VStr "Nikita") (started_at 0)) in
  player_search no_env up (VStr "NIKITA") (at_time 5000 w1)
  = (fst (player_search no_env up (VStr "Nikita") (started_at 0)), at_time 5000 w1).
Proof.
  intros up.
  apply (player_search_case_variants_share no_env up "Nikita" "NIKITA" (started_at 0)
           120 5000
           (VObj [("data", VObj [("playerByUsername", VObj [("username", VStr "Nikita")])])])
           (VObj [("username", VStr "Nikita")]));
    [reflexivity | reflexivity | reflexivity | reflexivity | reflexivity
    | simpl; lia | simpl; lia].
Defined.

Lemma player_search_reads_profile_entry_witness :
  let up := graphql_answers "player" (VObj [("id", VStr "abc")]) in
  let w1 := snd (player_profile no_env up "abc" (started_at 0)) in
  player_search no_env up (VStr "profile_abc") (at_time 5000 w1)
  = (Fulfilled (res_json (json_success (VObj [("id", VStr "abc")]))), at_time 5000 w1).
Proof.
  intros up.
  apply (player_search_reads_profile_entry no_env up "profile_abc" "abc" (started_at 0)
           120 5000 (VObj [("data", VObj [("player", VObj [("id", VStr "abc")])])])
           (VObj [("id", VStr "abc")]));
    [reflexivity | reflexivity | reflexivity | reflexivity | reflexivity | reflexivity
    | simpl; lia | simpl; lia].
Defined.

Lemma ban_check_always_succeeds_witness :
  exists resp w',
    ban_check no_env (fun _ _ => (30, Fulfilled VNull)) (VStr "Nikita") (started_at 0)
    = (Fulfilled resp, w')
    /\ is_success resp.
Proof.
  apply (ban_check_always_succeeds no_env (fun _ _ => (30, Fulfilled VNull)) "Nikita"
           (started_at 0)).
  reflexivity.
Defined.

Lemma ban_check_authoritative_witness :
  exists banStatus w1,
    ban_check no_env (ban_service_says [("banned", VStr "true")]) (VStr "Nikita")
      (started_at 0)
    = (Fulfilled (res_json (json_success banStatus)), w1)
    /\ member banStatus "username" = Fulfilled (VStr "Nikita")
    /\ (member banStatus "isBanned" = Fulfilled (VBool true)
        <-> assoc "banned" [("banned", VStr "true")] = VBool true)
    /\ member banStatus "source"
       = Fulfilled (or_else (assoc "source" [("banned", VStr "true")]) (VStr "unknown"))
    /\ member banStatus "note" = Fulfilled VUndefined
    /\ cache w1 !! ban_check_cacheKey "Nikita"
       = Some {| data := banStatus; timestamp := now (net (started_at 0)) + 30 |}.
Proof.
  apply (ban_check_authoritative no_env (ban_service_says [("banned", VStr "true")])
           "Nikita" (started_at 0) 30 [("banned", VStr "true")]); reflexivity.
Defined.


Lemma ban_stats_degraded_for_an_hour_witness :
  let answer := res_json (json_success (ban_stats_unavailable "T+8000ms")) in
  let w1 := snd (ban_stats no_env service_down sample_iso (started_at 0)) in
  fst (ban_stats no_env service_down sample_iso (started_at 0)) = Fulfilled answer
  /\ sent (net w1) = [ban_stats_call no_env]
  /\ ban_stats no_env service_down sample_iso (at_time 3607999 w1)
     = (Fulfilled answer, at_time 3607999 w1).
Proof.
  apply (ban_stats_degraded_for_an_hour no_env service_down sample_iso
           (started_at 0) 8000 3607999 (new_Error "timeout exceeded"));
    [reflexivity | reflexivity | simpl; lia | simpl; lia].
Defined.
